(** * Mover: the Codex / OLAMA integrator ([src/mover/tool.py])

    A shallow embedding of the integrator and of the text it ships as
    [SERVER_MODULE_TEMPLATE], followed by the properties checked against
    the specification.

    Conventions of the embedding.
    - A Python [str] is a [string]; the model covers ASCII text (code
      points below 128).  Characters with the high bit set stand for no
      Python character and every function below leaves them alone.
    - A [pathlib.Path] is the list of its components below the POSIX root,
      so [["opt"; "codex"]] is [/opt/codex].  Symbolic links, a doubled
      leading slash and [~user] are outside the model.
    - The filesystem is a finite map from paths to nodes; the functions
      that touch it run in a state-and-exception monad whose state also
      carries what was printed on standard output.
    - File contents are already-decoded text (a file that is not UTF-8 is
      outside the model); the host is POSIX, so writing text does not
      translate line ends, while reading does (universal newlines).
    - The process may read and write every path and the disk is never
      full: a read, a write or a copy fails only for what its paths are
      (missing, a directory, one and the same file), never for
      permissions or space.  What the program leaves behind when a write
      is refused half-way is outside the model.
    - The entries of a directory are listed in the order of the map's
      keys; the operating system promises no order, and nothing below
      is stated about which of several equally good entries comes
      first. *)

From Stdlib Require Import Ascii String ZArith Bool Lia.
From stdpp Require Import base option list gmap strings fin_maps pretty.

Local Open Scope string_scope.
Local Open Scope list_scope.

(** ** Python string primitives *)

Module Py.

Definition chr (n : nat) : ascii := ascii_of_nat n.
Definition char (c : ascii) : string := String c EmptyString.

(** The characters the source spells with an escape or that a Rocq
    string cannot hold undoubled. *)
Definition LF : ascii := chr 10.
Definition CR : ascii := chr 13.
Definition TAB : ascii := chr 9.
Definition DQ : ascii := chr 34.
Definition nl : string := char LF.
Definition dq : string := char DQ.

Definition is_empty (s : string) : bool :=
  match s with EmptyString => true | String _ _ => false end.

(** [s.startswith(p)] *)
Fixpoint startswith (p s : string) : bool :=
  match p, s with
  | EmptyString, _ => true
  | String a p', String b s' => if Ascii.eqb a b then startswith p' s' else false
  | String _ _, EmptyString => false
  end.

(** [needle in s] *)
Fixpoint contains (needle s : string) : bool :=
  startswith needle s ||
  match s with
  | EmptyString => false
  | String _ s' => contains needle s'
  end.

(** [s[n:]] *)
Fixpoint slice_from (n : nat) (s : string) : string :=
  match n, s with
  | O, _ => s
  | S n', String _ s' => slice_from n' s'
  | S _, EmptyString => EmptyString
  end.

(** [sep.join(xs)] *)
Fixpoint join (sep : string) (xs : list string) : string :=
  match xs with
  | [] => EmptyString
  | [x] => x
  | x :: rest => x +:+ sep +:+ join sep rest
  end.

(** [s.split(c)] for a one-character separator: never empty. *)
Fixpoint split_aux (c : ascii) (cur s : string) : list string :=
  match s with
  | EmptyString => [cur]
  | String a s' =>
      if Ascii.eqb a c then cur :: split_aux c EmptyString s'
      else split_aux c (cur +:+ char a) s'
  end.
Definition split (c : ascii) (s : string) : list string :=
  split_aux c EmptyString s.

(** Line boundaries of [str.splitlines] among the ASCII characters:
    LF, VT, FF, FS, GS, RS (CR and CR LF are handled in [splitlines]). *)
Definition is_linebreak (c : ascii) : bool :=
  let n := nat_of_ascii c in
  (n =? 10)%nat || (n =? 11)%nat || (n =? 12)%nat ||
  (n =? 28)%nat || (n =? 29)%nat || (n =? 30)%nat.

(** [s.splitlines()]: the line ends are dropped and a final line end
    opens no further line. *)
Fixpoint splitlines_aux (cur s : string) : list string :=
  match s with
  | EmptyString => if is_empty cur then [] else [cur]
  | String a s' =>
      if Ascii.eqb a CR then
        match s' with
        | String b s'' =>
            if Ascii.eqb b LF then cur :: splitlines_aux EmptyString s''
            else cur :: splitlines_aux EmptyString s'
        | EmptyString => cur :: splitlines_aux EmptyString s'
        end
      else if is_linebreak a then cur :: splitlines_aux EmptyString s'
      else splitlines_aux (cur +:+ char a) s'
  end.
Definition splitlines (s : string) : list string :=
  splitlines_aux EmptyString s.

(** [str.isspace] on ASCII: TAB, LF, VT, FF, CR, FS, GS, RS, US, space. *)
Definition is_space (c : ascii) : bool :=
  let n := nat_of_ascii c in
  ((9 <=? n)%nat && (n <=? 13)%nat) ||
  ((28 <=? n)%nat && (n <=? 32)%nat).

Fixpoint lstrip_by (f : ascii -> bool) (s : string) : string :=
  match s with
  | EmptyString => EmptyString
  | String a s' => if f a then lstrip_by f s' else s
  end.

Fixpoint rstrip_by (f : ascii -> bool) (s : string) : string :=
  match s with
  | EmptyString => EmptyString
  | String a s' =>
      let r := rstrip_by f s' in
      if f a && is_empty r then EmptyString else String a r
  end.

Definition strip_by (f : ascii -> bool) (s : string) : string :=
  rstrip_by f (lstrip_by f s).

(** [s.strip()] *)
Definition strip (s : string) : string := strip_by is_space s.

(** [s.strip(chars)] for a one-character [chars]. *)
Definition strip_char (c : ascii) (s : string) : string :=
  strip_by (Ascii.eqb c) s.

(** [s.lower()] on ASCII. *)
Definition lower_char (c : ascii) : ascii :=
  let n := nat_of_ascii c in
  if (65 <=? n)%nat && (n <=? 90)%nat then ascii_of_nat (n + 32) else c.
Fixpoint lower (s : string) : string :=
  match s with
  | EmptyString => EmptyString
  | String a s' => String (lower_char a) (lower s')
  end.

Fixpoint endswith_aux (p s : string) (fuel : nat) : bool :=
  String.eqb p s ||
  match fuel, s with
  | S fuel', String _ s' => endswith_aux p s' fuel'
  | _, _ => false
  end.
(** [s.endswith(p)] *)
Definition endswith (p s : string) : bool :=
  endswith_aux p s (String.length s).

(** Universal newlines, as text-mode reading applies them: CR LF and a
    lone CR both become LF. *)
Fixpoint universal_newlines (s : string) : string :=
  match s with
  | EmptyString => EmptyString
  | String a s' =>
      if Ascii.eqb a CR then
        match s' with
        | String b s'' =>
            if Ascii.eqb b LF then String LF (universal_newlines s'')
            else String LF (universal_newlines s')
        | EmptyString => String LF EmptyString
        end
      else String a (universal_newlines s')
  end.

(** [repr(s)] of a [str], as CPython's [unicode_repr] builds it: between
    single quotes, unless the text holds a single quote and no double
    quote; a backslash before the backslash and before the quote in use;
    tab, line feed and carriage return by their letters, the other
    control characters as [\xhh]. *)
Definition BACKSLASH : ascii := chr 92.
Definition SQ : ascii := chr 39.

Definition hex_digit (n : nat) : ascii :=
  if (n <? 10)%nat then ascii_of_nat (48 + n) else ascii_of_nat (87 + n).

Definition repr_quote (s : string) : ascii :=
  if contains (char SQ) s && negb (contains (char DQ) s) then DQ else SQ.

Definition repr_char (quote c : ascii) : string :=
  let n := nat_of_ascii c in
  if Ascii.eqb c quote || Ascii.eqb c BACKSLASH then String BACKSLASH (char c)
  else if Ascii.eqb c TAB then String BACKSLASH "t"
  else if Ascii.eqb c LF then String BACKSLASH "n"
  else if Ascii.eqb c CR then String BACKSLASH "r"
  else if (n <? 32)%nat || (n =? 127)%nat
  then String BACKSLASH
         (String "x" (String (hex_digit (n / 16)) (char (hex_digit (n mod 16)))))
  else char c.

Fixpoint repr_body (quote : ascii) (s : string) : string :=
  match s with
  | EmptyString => EmptyString
  | String a s' => repr_char quote a +:+ repr_body quote s'
  end.

Definition repr (s : string) : string :=
  let quote := repr_quote s in
  String quote (repr_body quote s +:+ char quote).

(** A template written with a backquote wherever the Python text has a
    double quote; [unquote] puts the double quotes back. *)
Fixpoint unquote (s : string) : string :=
  match s with
  | EmptyString => EmptyString
  | String a s' =>
      String (if Ascii.eqb a (chr 96) then DQ else a) (unquote s')
  end.

End Py.

(** ** Exceptions and Python values *)

(** The exceptions the integrator can meet.  [FileNotFoundError] is the one
    the program raises itself, with its message; the others come from the
    library calls it makes. *)
Inductive exn : Type :=
| FileNotFoundError (msg : string)
| NoSuchFile (path : list string)            (* FileNotFoundError of the OS *)
| IsADirectoryError (path : list string)
| NotADirectoryError (path : list string)
| KeyError (key : string)
| IndexError (msg : string)
| ValueError (msg : string)
| FileExistsError (path : list string)
| SameFileError (path : list string)
| NotModelled (what : string).

Inductive outcome (A : Type) : Type :=
| Ok (a : A)
| Raise (e : exn).
Arguments Ok {A} a.
Arguments Raise {A} e.

(** The values passed to [str.format] by the integrator. *)
Inductive pyval : Type :=
| PStr (s : string)
| PInt (z : Z).

Definition py_str (v : pyval) : string :=
  match v with
  | PStr s => s
  | PInt z => pretty z
  end.

(** ** [str.format] with keyword arguments only

    The scanner of CPython's [MarkupIterator_next] and [parse_field], one
    character at a time.  Fields are rendered in the order they occur, so
    the first field that fails decides the exception. *)

Module Format.
Import Py.

Inductive mode : Type :=
| Lit
| Name (acc : string)
| NameBr (acc : string)
| Conv (name : string)
| ConvEnd (name : string) (conv : ascii)
| Spec (name : string) (conv : option ascii) (depth : nat) (acc : string).

Definition is_digit (c : ascii) : bool :=
  let n := nat_of_ascii c in (48 <=? n)%nat && (n <=? 57)%nat.

Fixpoint all_digits (s : string) : bool :=
  match s with
  | EmptyString => true
  | String a s' => is_digit a && all_digits s'
  end.

(** The part of a field name before the first [.] or [[]], and the rest. *)
Fixpoint field_name_split (s : string) : string * string :=
  match s with
  | EmptyString => (EmptyString, EmptyString)
  | String a s' =>
      if Ascii.eqb a "." || Ascii.eqb a "[" then (EmptyString, s)
      else let '(first, rest) := field_name_split s' in (String a first, rest)
  end.

Definition lookup_kwarg (kwargs : list (string * pyval)) (key : string)
  : option pyval :=
  snd <$> List.find (fun kv => String.eqb (fst kv) key) kwargs.

(** A complete replacement field.  The positional tuple is empty, so an
    omitted or numeric name is an [IndexError]; a name missing from the
    keyword arguments is a [KeyError].  Attribute and index lookups on a
    found value, conversions and format specs do not occur in this
    program's fields and are left unmodelled. *)
Definition render_field (kwargs : list (string * pyval))
    (name : string) (conv : option ascii) (spec : string) : outcome string :=
  let '(first, rest) := field_name_split name in
  if all_digits first then
    let index := lstrip_by (Ascii.eqb "0") first in
    Raise (IndexError ("Replacement index " +:+
                       (if is_empty index then "0" else index) +:+
                       " out of range for positional args tuple"))
  else
    match lookup_kwarg kwargs first with
    | None => Raise (KeyError first)
    | Some v =>
        match conv with
        | Some _ => Raise (NotModelled "conversion")
        | None =>
            if is_empty rest && is_empty spec then Ok (py_str v)
            else Raise (NotModelled "attribute, index or format spec")
        end
    end.

Fixpoint scan (kwargs : list (string * pyval)) (m : mode) (out : string)
    (s : string) {struct s} : outcome string :=
  match s with
  | EmptyString =>
      match m with
      | Lit => Ok out
      | Name _ | NameBr _ => Raise (ValueError "expected '}' before end of string")
      | Conv _ =>
          Raise (ValueError "end of string while looking for conversion specifier")
      | ConvEnd _ _ | Spec _ _ _ _ => Raise (ValueError "unmatched '{' in format spec")
      end
  | String c s' =>
      match m with
      | Lit =>
          if Ascii.eqb c "{" then
            match s' with
            | EmptyString => Raise (ValueError "Single '{' encountered in format string")
            | String d s'' =>
                if Ascii.eqb d "{" then scan kwargs Lit (out +:+ "{") s''
                else scan kwargs (Name EmptyString) out s'
            end
          else if Ascii.eqb c "}" then
            match s' with
            | String d s'' =>
                if Ascii.eqb d "}" then scan kwargs Lit (out +:+ "}") s''
                else Raise (ValueError "Single '}' encountered in format string")
            | EmptyString => Raise (ValueError "Single '}' encountered in format string")
            end
          else scan kwargs Lit (out +:+ char c) s'
      | Name acc =>
          if Ascii.eqb c "{" then Raise (ValueError "unexpected '{' in field name")
          else if Ascii.eqb c "[" then scan kwargs (NameBr (acc +:+ char c)) out s'
          else if Ascii.eqb c "}" then
            match render_field kwargs acc None EmptyString with
            | Ok text => scan kwargs Lit (out +:+ text) s'
            | Raise e => Raise e
            end
          else if Ascii.eqb c ":" then scan kwargs (Spec acc None 1 EmptyString) out s'
          else if Ascii.eqb c "!" then scan kwargs (Conv acc) out s'
          else scan kwargs (Name (acc +:+ char c)) out s'
      | NameBr acc =>
          if Ascii.eqb c "]" then scan kwargs (Name (acc +:+ char c)) out s'
          else scan kwargs (NameBr (acc +:+ char c)) out s'
      | Conv name => scan kwargs (ConvEnd name c) out s'
      | ConvEnd name conv =>
          if Ascii.eqb c "}" then
            match render_field kwargs name (Some conv) EmptyString with
            | Ok text => scan kwargs Lit (out +:+ text) s'
            | Raise e => Raise e
            end
          else if Ascii.eqb c ":" then
            scan kwargs (Spec name (Some conv) 1 EmptyString) out s'
          else Raise (ValueError "expected ':' after conversion specifier")
      | Spec name conv depth acc =>
          if Ascii.eqb c "{" then
            scan kwargs (Spec name conv (S depth) (acc +:+ char c)) out s'
          else if Ascii.eqb c "}" then
            match depth with
            | 1%nat =>
                match render_field kwargs name conv acc with
                | Ok text => scan kwargs Lit (out +:+ text) s'
                | Raise e => Raise e
                end
            | _ => scan kwargs (Spec name conv (Nat.pred depth) (acc +:+ char c)) out s'
            end
          else scan kwargs (Spec name conv depth (acc +:+ char c)) out s'
      end
  end.

(** [template.format] applied to keyword arguments. *)
Definition format (template : string) (kwargs : list (string * pyval))
  : outcome string :=
  scan kwargs Lit EmptyString template.

End Format.

(** ** [textwrap.dedent] *)

Module Textwrap.
Import Py.

Definition is_blank (c : ascii) : bool := Ascii.eqb c " " || Ascii.eqb c TAB.

(** The line is made of spaces and tabs only (possibly of nothing). *)
Fixpoint ws_only (s : string) : bool :=
  match s with
  | EmptyString => true
  | String a s' => is_blank a && ws_only s'
  end.

(** The leading spaces and tabs of a line. *)
Fixpoint indent_of (s : string) : string :=
  match s with
  | EmptyString => EmptyString
  | String a s' => if is_blank a then String a (indent_of s') else EmptyString
  end.

Fixpoint common_prefix (a b : string) : string :=
  match a, b with
  | String x a', String y b' =>
      if Ascii.eqb x y then String x (common_prefix a' b') else EmptyString
  | _, _ => EmptyString
  end.

(** The margin: the longest common leading whitespace of the lines that
    hold some text; [None] when there is no such line. *)
Fixpoint margin_of (margin : option string) (lines : list string)
  : option string :=
  match lines with
  | [] => margin
  | l :: rest =>
      if ws_only l then margin_of margin rest
      else
        match margin with
        | None => margin_of (Some (indent_of l)) rest
        | Some m => margin_of (Some (common_prefix m (indent_of l))) rest
        end
  end.

Definition blank_ws_only (l : string) : string :=
  if ws_only l then EmptyString else l.

Definition remove_margin (margin : option string) (l : string) : string :=
  match margin with
  | Some m => if startswith m l then slice_from (String.length m) l else l
  | None => l
  end.

(** [textwrap.dedent(text)]: whitespace-only lines are emptied, then the
    margin is removed from the start of every line. *)
Definition dedent (text : string) : string :=
  let lines := blank_ws_only <$> split LF text in
  let margin := margin_of None lines in
  join nl (remove_margin margin <$> lines).

End Textwrap.

(** ** [pathlib] on POSIX *)

Abbreviation Path := (list string).

Module PathLib.
Import Py.

(** [str(path)] *)
Definition str (p : Path) : string := "/" +:+ join "/" p.

(** [path / name] for a one-component [name]. *)
Definition div (p : Path) (name : string) : Path := p ++ [name].

(** [path.name]: the last component, empty for the root. *)
Definition name (p : Path) : string := List.last p EmptyString.

(** [path.parent] *)
Definition parent (p : Path) : Path := List.removelast p.

(** A name cut at its last dot: what is before it, and the rest from the
    dot on; [None] when the name has no dot. *)
Fixpoint last_dot (s : string) : option (string * string) :=
  match s with
  | EmptyString => None
  | String a s' =>
      match last_dot s' with
      | Some (stem, suf) => Some (String a stem, suf)
      | None => if Ascii.eqb a "." then Some (EmptyString, s) else None
      end
  end.

(** [PurePath.suffix] of a name: from the last dot on, unless that dot
    is the first or the last character. *)
Definition name_suffix (n : string) : string :=
  match last_dot n with
  | Some (stem, suf) =>
      if negb (is_empty stem) && (1 <? String.length suf)%nat then suf
      else EmptyString
  | None => EmptyString
  end.

Definition name_stem (n : string) : string :=
  match last_dot n with
  | Some (stem, suf) =>
      if negb (is_empty stem) && (1 <? String.length suf)%nat then stem
      else n
  | None => n
  end.

(** [path.suffix] *)
Definition suffix (p : Path) : string := name_suffix (name p).

(** [path.with_suffix(suffix)], with the checks of CPython 3.11 in their
    order; the messages format the suffix and the path with [%r]. *)
Definition with_suffix (p : Path) (suf : string) : outcome Path :=
  if contains "/" suf then Raise (ValueError ("Invalid suffix " +:+ repr suf))
  else if (negb (is_empty suf) && negb (startswith "." suf)) || String.eqb suf "."
  then Raise (ValueError ("Invalid suffix " +:+ repr suf))
  else if is_empty (name p)
  then Raise (ValueError ("PosixPath(" +:+ repr (str p) +:+ ") has an empty name"))
  else Ok (parent p ++ [name_stem (name p) +:+ suf]).

(** [PurePosixPath(text)]: whether the text is absolute, and its
    components (empty ones and single dots are dropped). *)
Definition parse (text : string) : bool * list string :=
  (startswith "/" text,
   List.filter (fun c => negb (is_empty c) && negb (String.eqb c "."))
               (split "/" text)).

(** The lexical part of [resolve()]: [..] climbs one component and
    stays put at the root. *)
Fixpoint normalise (acc : Path) (parts : list string) : Path :=
  match parts with
  | [] => acc
  | c :: rest =>
      if String.eqb c ".." then normalise (List.removelast acc) rest
      else normalise (acc ++ [c]) rest
  end.

(** [Path(text).expanduser().resolve()] for a process whose home and
    working directories are [home] and [cwd]. *)
Definition expand_resolve (home cwd : Path) (text : string) : outcome Path :=
  let '(absolute, parts) := parse text in
  if absolute then Ok (normalise [] parts)
  else
    match parts with
    | first :: rest =>
        if String.eqb first "~" then Ok (normalise home rest)
        else if startswith "~" first then Raise (NotModelled "~user")
        else Ok (normalise cwd parts)
    | [] => Ok (normalise cwd parts)
    end.

(** What is left of [p] below [root], when [root] is a prefix of it. *)
Fixpoint below (p root : Path) : option (list string) :=
  match root, p with
  | [] , _ => Some p
  | r :: root', c :: p' => if String.eqb r c then below p' root' else None
  | _ :: _, [] => None
  end.

(** [path.relative_to(root)] of two absolute paths, with the message of
    CPython 3.11. *)
Definition relative_to (p root : Path) : outcome (list string) :=
  match below p root with
  | Some rest => Ok rest
  | None =>
      Raise (ValueError
        (repr (str p) +:+ " is not in the subpath of " +:+ repr (str root) +:+
         " OR one path is relative and the other is absolute."))
  end.

End PathLib.

(** ** [json.dumps] of the manifest's scalars *)

Module Json.
Import Py.

Definition BACKSLASH : string := char (chr 92).

Definition hex_digit (n : nat) : ascii :=
  if (n <? 10)%nat then ascii_of_nat (48 + n) else ascii_of_nat (87 + n).

(** One character inside a JSON string, [ensure_ascii] style. *)
Definition escape_char (c : ascii) : string :=
  let n := nat_of_ascii c in
  if (n =? 34)%nat then BACKSLASH +:+ dq
  else if (n =? 92)%nat then BACKSLASH +:+ BACKSLASH
  else if (n =? 10)%nat then BACKSLASH +:+ "n"
  else if (n =? 13)%nat then BACKSLASH +:+ "r"
  else if (n =? 9)%nat then BACKSLASH +:+ "t"
  else if (n =? 8)%nat then BACKSLASH +:+ "b"
  else if (n =? 12)%nat then BACKSLASH +:+ "f"
  else if (32 <=? n)%nat && (n <=? 126)%nat then char c
  else BACKSLASH +:+ "u00" +:+ char (hex_digit (n / 16)) +:+ char (hex_digit (n mod 16)).

Fixpoint escape (s : string) : string :=
  match s with
  | EmptyString => EmptyString
  | String a s' => escape_char a +:+ escape s'
  end.

Definition dumps_str (s : string) : string := dq +:+ escape s +:+ dq.

Fixpoint insert_by_key (kv : string * string) (l : list (string * string))
  : list (string * string) :=
  match l with
  | [] => [kv]
  | x :: rest =>
      if String.leb (fst kv) (fst x) then kv :: l
      else x :: insert_by_key kv rest
  end.

Definition sort_keys (l : list (string * string)) : list (string * string) :=
  List.fold_right insert_by_key [] l.

(** [json.dumps(obj, indent=2, sort_keys=True)] of a flat object whose
    members are given already rendered, in any order of distinct keys. *)
Definition dumps_object (members : list (string * string)) : string :=
  let sorted := sort_keys members in
  match sorted with
  | [] => "{}"
  | _ =>
      "{" +:+ nl +:+
      join ("," +:+ nl)
           ((fun kv => "  " +:+ dumps_str (fst kv) +:+ ": " +:+ snd kv) <$> sorted)
      +:+ nl +:+ "}"
  end.

End Json.

(** ** The filesystem and the monad of the integrator *)

Inductive node : Type :=
| File (content : string)
| Dir.

Record world : Type := World {
  fs : gmap (list string) node;
  stdout : list string;
}.

(** A computation reads and updates the world, and returns or raises. *)
Definition M (A : Type) : Type := world -> world * outcome A.

Definition ret {A} (a : A) : M A := fun w => (w, Ok a).
Definition raise {A} (e : exn) : M A := fun w => (w, Raise e).
Definition bind {A B} (c : M A) (k : A -> M B) : M B :=
  fun w =>
    match c w with
    | (w', Ok a) => k a w'
    | (w', Raise e) => (w', Raise e)
    end.
Definition lift {A} (o : outcome A) : M A := fun w => (w, o).
Definition get_fs : M (gmap (list string) node) := fun w => (w, Ok (fs w)).
Definition put_fs (f : gmap (list string) node) : M unit :=
  fun w => (World f (stdout w), Ok tt).

Notation "'let*' x ':=' c 'in' k" := (bind c (fun x => k))
  (at level 10, x name, c at level 100, k at level 200).
Notation "c ';;' k" := (bind c (fun _ => k))
  (at level 100, k at level 200, right associativity).

Module Os.
Import Py.

(** The node at a path; the root is always a directory. *)
Definition node_at (f : gmap (list string) node) (p : Path) : option node :=
  match p with
  | [] => Some Dir
  | _ => f !! p
  end.

(** [path.exists()] *)
Definition path_exists (f : gmap (list string) node) (p : Path) : bool :=
  match node_at f p with Some _ => true | None => false end.

(** [path.is_dir()] *)
Definition is_dir (f : gmap (list string) node) (p : Path) : bool :=
  match node_at f p with Some Dir => true | _ => false end.

(** The entries directly under [dir], in the order the map lists them
    (Python promises no order). *)
Definition children (f : gmap (list string) node) (dir : Path) : list Path :=
  List.filter (fun k => negb (bool_decide (k = [])) &&
                        bool_decide (PathLib.parent k = dir))
              (fst <$> map_to_list f).

(** [path.iterdir()] *)
Definition iterdir (f : gmap (list string) node) (dir : Path)
  : outcome (list Path) :=
  match node_at f dir with
  | Some Dir => Ok (children f dir)
  | Some (File _) => Raise (NotADirectoryError dir)
  | None => Raise (NoSuchFile dir)
  end.

(** [path.glob("*.py")]: nothing when [dir] is not a directory. *)
Definition glob_py (f : gmap (list string) node) (dir : Path) : list Path :=
  if is_dir f dir
  then List.filter (fun k => endswith ".py" (PathLib.name k)) (children f dir)
  else [].

(** [path.read_text(encoding="utf-8")] as a function of the filesystem. *)
Definition read_text_of (f : gmap (list string) node) (p : Path)
  : outcome string :=
  match node_at f p with
  | Some (File c) => Ok (universal_newlines c)
  | Some Dir => Raise (IsADirectoryError p)
  | None => Raise (NoSuchFile p)
  end.

Definition read_text (p : Path) : M string :=
  let* f := get_fs in lift (read_text_of f p).

(** [path.write_text(content, encoding="utf-8")]; the parent directory
    is there at every call the integrator makes.  A write that the
    operating system refuses (permissions, a full disk) is outside the
    model, here and in [copy2]. *)
Definition write_text (p : Path) (content : string) : M unit :=
  let* f := get_fs in
  match node_at f p with
  | Some Dir => raise (IsADirectoryError p)
  | _ => put_fs (<[p := File content]> f)
  end.

(** [shutil.copy2(src, dst)]: the bytes of [src] land at [dst], or inside
    it when it is a directory. *)
Definition copy2 (src dst : Path) : M unit :=
  let* f := get_fs in
  match node_at f src with
  | Some (File c) =>
      match node_at f dst with
      | Some Dir => put_fs (<[PathLib.div dst (PathLib.name src) := File c]> f)
      | Some (File _) =>
          if bool_decide (src = dst) then raise (SameFileError src)
          else put_fs (<[dst := File c]> f)
      | None => put_fs (<[dst := File c]> f)
      end
  | Some Dir => raise (IsADirectoryError src)
  | None => raise (NoSuchFile src)
  end.

(** [path.mkdir(parents=True, exist_ok=True)], one ancestor after the
    other from the top.  Nothing has been created when a regular file is
    met, since every ancestor above it exists; the error is the one of the
    first [os.mkdir], which names the directory asked for. *)
Fixpoint mkdir_from (done todo : Path) (f : gmap (list string) node)
  : outcome (gmap (list string) node) :=
  match todo with
  | [] => Ok f
  | c :: rest =>
      let here := done ++ [c] in
      match f !! here with
      | Some Dir => mkdir_from here rest f
      | Some (File _) =>
          match rest with
          | [] => Raise (FileExistsError here)
          | _ => Raise (NotADirectoryError (here ++ rest))
          end
      | None => mkdir_from here rest (<[here := Dir]> f)
      end
  end.

Definition mkdir_parents (p : Path) : M unit :=
  let* f := get_fs in
  match mkdir_from [] p f with
  | Ok f' => put_fs f'
  | Raise e => raise e
  end.

(** [print(line)] *)
Definition print (line : string) : M unit :=
  fun w => (World (fs w) (stdout w ++ [line]), Ok tt).

End Os.

(** ** The integrator ([src/mover/tool.py]) *)

Module Tool.
Import Py.

Definition DEFAULT_INSTALL_LOCATIONS : list string := [
  "~/.codex";
  "~/Library/Application Support/Codex";
  "~/Applications/Codex.app/Contents/Resources/app";
  "~/codex";
  "/usr/local/lib/codex";
  "/opt/codex"
].

(** The lines of the template literal, a backquote standing for each
    double quote.  The literal is not a raw string, so the escape it
    holds in [_normalise_prompt]'s [return] is a line feed of the
    template: that source line is two lines here. *)
Definition SERVER_MODULE_TEMPLATE_lines : list string := [
  "```A tiny HTTP server that speaks a subset of the OpenAI API using OLAMA.```";
  "import json";
  "import os";
  "import socket";
  "import subprocess";
  "import threading";
  "import uuid";
  "from http.server import BaseHTTPRequestHandler, ThreadingHTTPServer";
  "from typing import Any, Dict, Tuple";
  EmptyString;
  "HOST = os.environ.get(`CODEX_LOCAL_SERVER_HOST`, `{host}`)";
  "PORT = int(os.environ.get(`CODEX_LOCAL_SERVER_PORT`, `{port}`))";
  "DEFAULT_MODEL = os.environ.get(`CODEX_LOCAL_MODEL`, `{model}`)";
  "OLAMA_BIN = os.environ.get(`OLAMA_BIN`, `olama`)";
  "_API_BASE = f`http://{host}:{port}/v1`";
  "_SERVER_THREAD: threading.Thread | None = None";
  "_SERVER: ThreadingHTTPServer | None = None";
  EmptyString;
  EmptyString;
  "def _normalise_prompt(messages: Any, prompt: str | None) -> Tuple[str, str]:";
  "    if prompt:";
  "        return prompt, `completion`";
  "    if not isinstance(messages, list):";
  "        raise ValueError(`messages must be a list of chat messages`)";
  "    rendered = []";
  "    for item in messages:";
  "        role = item.get(`role`, `user`)";
  "        content = item.get(`content`, ``)";
  "        rendered.append(f`[{role.upper()}] {content}`)";
  "    rendered.append(`[ASSISTANT]`)";
  "    return `";
  "`.join(rendered), `chat`";
  EmptyString;
  EmptyString;
  "def _run_olama(prompt: str, model: str) -> str:";
  "    cmd = [OLAMA_BIN, `run`, model, `--prompt`, prompt]";
  "    proc = subprocess.run(";
  "        cmd,";
  "        check=False,";
  "        capture_output=True,";
  "        text=True,";
  "    )";
  "    if proc.returncode != 0:";
  "        raise RuntimeError(";
  "            `OLAMA command failed`, cmd, proc.returncode, proc.stderr.strip()";
  "        )";
  "    return proc.stdout.strip()";
  EmptyString;
  EmptyString;
  "class _RequestHandler(BaseHTTPRequestHandler):";
  "    server_version = `CodexLocalModel/0.1`";
  EmptyString;
  "    def _set_headers(self) -> None:";
  "        self.send_response(200)";
  "        self.send_header(`Content-Type`, `application/json`)";
  "        self.end_headers()";
  EmptyString;
  "    def _send_error(self, message: str, status: int = 500) -> None:";
  "        self.send_response(status)";
  "        self.send_header(`Content-Type`, `application/json`)";
  "        self.end_headers()";
  "        payload = {`error`: {`message`: message, `type`: `olama_error`}}";
  "        self.wfile.write(json.dumps(payload).encode(`utf-8`))";
  EmptyString;
  "    def _read_json(self) -> Dict[str, Any]:";
  "        length = int(self.headers.get(`Content-Length`, `0`))";
  "        body = self.rfile.read(length).decode(`utf-8`)";
  "        return json.loads(body or `{}`)";
  EmptyString;
  "    def do_POST(self) -> None:  # noqa: N802 (http method name)";
  "        try:";
  "            payload = self._read_json()";
  "            model = payload.get(`model`) or DEFAULT_MODEL";
  "            prompt, mode = _normalise_prompt(";
  "                payload.get(`messages`), payload.get(`prompt`)";
  "            )";
  "            completion = _run_olama(prompt, model)";
  "            response_id = f`local-codex-{uuid.uuid4()}`";
  "            if mode == `chat`:";
  "                body = {";
  "                    `id`: response_id,";
  "                    `object`: `chat.completion`,";
  "                    `model`: model,";
  "                    `choices`: [";
  "                        {";
  "                            `index`: 0,";
  "                            `finish_reason`: `stop`,";
  "                            `message`: {";
  "                                `role`: `assistant`,";
  "                                `content`: completion,";
  "                            },";
  "                        }";
  "                    ],";
  "                }";
  "            else:";
  "                body = {";
  "                    `id`: response_id,";
  "                    `object`: `text_completion`,";
  "                    `model`: model,";
  "                    `choices`: [";
  "                        {";
  "                            `index`: 0,";
  "                            `finish_reason`: `stop`,";
  "                            `text`: completion,";
  "                        }";
  "                    ],";
  "                }";
  "            self._set_headers()";
  "            self.wfile.write(json.dumps(body).encode(`utf-8`))";
  "        except Exception as exc:  # pragma: no cover - defensive";
  "            self._send_error(str(exc))";
  EmptyString;
  "    def log_message(self, format: str, *args: object) -> None:  # noqa: A003";
  "        if os.environ.get(`CODEX_LOCAL_SERVER_LOG`, `0`) not in {`1`, `true`, `True`}:";
  "            return";
  "        super().log_message(format, *args)";
  EmptyString;
  EmptyString;
  "def _start_server() -> None:";
  "    global _SERVER_THREAD, _SERVER";
  "    if _SERVER_THREAD and _SERVER_THREAD.is_alive():";
  "        return";
  "    with socket.socket(socket.AF_INET, socket.SOCK_STREAM) as sock:";
  "        try:";
  "            sock.bind((HOST, PORT))";
  "        except OSError as exc:";
  "            raise RuntimeError(";
  "                f`Port {PORT} on {HOST} is already in use; `";
  "                `set CODEX_LOCAL_SERVER_PORT to override`";
  "            ) from exc";
  "    server = ThreadingHTTPServer((HOST, PORT), _RequestHandler)";
  "    _SERVER = server";
  EmptyString;
  "    def _serve() -> None:";
  "        with server:";
  "            server.serve_forever()";
  EmptyString;
  "    thread = threading.Thread(target=_serve, daemon=True)";
  "    thread.start()";
  "    _SERVER_THREAD = thread";
  EmptyString;
  EmptyString;
  "def ensure_local_model_server() -> Dict[str, str]:";
  "    ```Ensure the OLAMA-backed bridge server is running.```";
  "    _start_server()";
  "    os.environ.setdefault(`OPENAI_API_BASE`, _API_BASE)";
  "    os.environ.setdefault(`OPENAI_API_KEY`, `olama-local`)";
  "    return {`host`: HOST, `port`: str(PORT), `base_url`: _API_BASE}";
  EmptyString;
  EmptyString;
  "__all__ = [`ensure_local_model_server`]"
].

Definition SERVER_MODULE_TEMPLATE : string :=
  unquote (join nl SERVER_MODULE_TEMPLATE_lines +:+ nl).

(** The dataclass.  [codex_root] is the text given as [--codex-path],
    [None] when the option is absent (a [Path] is always truthy). *)
Record CodexLocalModelIntegrator : Type := {
  codex_root : option string;
  model : string;
  host : string;
  port : Z;
  dry_run : bool;
  backup_suffix : string;
}.

(** What the process sees of its environment: the home directory that
    [expanduser] substitutes, the working directory that [resolve] starts
    from, and the variable [CODEX_INSTALL_DIR]. *)
Record os_env : Type := {
  HOME : list string;
  cwd : list string;
  CODEX_INSTALL_DIR : option string;
}.

Section Methods.
Variable self : CodexLocalModelIntegrator.
Variable env : os_env.

Definition expand_resolve (text : string) : outcome Path :=
  PathLib.expand_resolve (HOME env) (cwd env) text.

(** The [for candidate in DEFAULT_INSTALL_LOCATIONS] loop. *)
Fixpoint first_existing_default (f : gmap (list string) node)
    (candidates : list string) : outcome Path :=
  match candidates with
  | [] =>
      Raise (FileNotFoundError
               ("Unable to locate Codex installation. Provide --codex-path explicitly "
                +:+ "or set CODEX_INSTALL_DIR."))
  | candidate :: rest =>
      match expand_resolve candidate with
      | Ok path =>
          if Os.path_exists f path then Ok path
          else first_existing_default f rest
      | Raise e => Raise e
      end
  end.

Definition locate_codex (f : gmap (list string) node) : outcome Path :=
  match codex_root self with
  | Some text =>
      match expand_resolve text with
      | Ok root =>
          if negb (Os.path_exists f root) then
            Raise (FileNotFoundError
                     ("Provided Codex path does not exist: " +:+ PathLib.str root))
          else Ok root
      | Raise e => Raise e
      end
  | None =>
      let defaults := first_existing_default f DEFAULT_INSTALL_LOCATIONS in
      match CODEX_INSTALL_DIR env with
      | Some env_dir =>
          if negb (is_empty env_dir) then
            match expand_resolve env_dir with
            | Ok root => if Os.path_exists f root then Ok root else defaults
            | Raise e => Raise e
            end
          else defaults
      | None => defaults
      end
  end.

(** The generator: what it yields, and the exception that ends it if
    listing the root fails. *)
Definition _candidate_package_dirs (f : gmap (list string) node) (root : Path)
  : list Path * option exn :=
  let direct := PathLib.div root "codex" in
  let src := PathLib.div (PathLib.div root "src") "codex" in
  let lib := PathLib.div (PathLib.div root "lib") "codex" in
  let fixed :=
    (if Os.path_exists f direct then [direct] else []) ++
    (if Os.path_exists f src then [src] else []) ++
    (if Os.path_exists f lib then [lib] else []) in
  match Os.iterdir f root with
  | Ok kids =>
      (fixed ++
       List.filter
         (fun child =>
            Os.is_dir f child &&
            startswith "codex" (lower (PathLib.name child)) &&
            Os.path_exists f (PathLib.div child "__init__.py"))
         kids,
       None)
  | Raise e => (fixed, Some e)
  end.

Definition resolve_package_dir (f : gmap (list string) node) (root : Path)
  : outcome Path :=
  let '(candidates, failure) := _candidate_package_dirs f root in
  match List.find (fun c => Os.path_exists f (PathLib.div c "__init__.py"))
                  candidates with
  | Some candidate => Ok candidate
  | None =>
      match failure with
      | Some e => Raise e
      | None =>
          Raise (FileNotFoundError
                   ("Could not find a Codex python package under " +:+
                    PathLib.str root +:+ ". " +:+
                    "Expected to see a directory containing an __init__.py file."))
      end
  end.

Definition MAIN_GUARD : string :=
  "__name__ == " +:+ dq +:+ "__main__" +:+ dq.

(** The [for py_file in package_dir.glob("*.py")] loop. *)
Fixpoint first_with_main_guard (f : gmap (list string) node)
    (package_dir : Path) (files : list Path) : outcome Path :=
  match files with
  | [] =>
      Raise (FileNotFoundError
               ("Unable to locate Codex CLI entrypoint under " +:+
                PathLib.str package_dir +:+ ". " +:+
                "Tried __main__.py, cli.py, main.py and files with a __main__ guard."))
  | py_file :: rest =>
      match Os.read_text_of f py_file with
      | Ok text =>
          if contains MAIN_GUARD text then Ok py_file
          else first_with_main_guard f package_dir rest
      | Raise e => Raise e
      end
  end.

Definition resolve_entrypoint (f : gmap (list string) node) (package_dir : Path)
  : outcome Path :=
  let direct := PathLib.div package_dir "__main__.py" in
  if Os.path_exists f direct then Ok direct
  else
    match List.find (fun c => Os.path_exists f c)
                    (PathLib.div package_dir <$> ["cli.py"; "main.py"; "app.py"]) with
    | Some candidate => Ok candidate
    | None => first_with_main_guard f package_dir (Os.glob_py f package_dir)
    end.

Definition _write_file (path : Path) (content : string) : M unit :=
  if dry_run self then
    Os.print ("[dry-run] Would write " +:+ PathLib.str path)
  else
    Os.mkdir_parents (PathLib.parent path);;
    Os.write_text path content.

(** [path.with_suffix(path.suffix + self.backup_suffix)] *)
Definition backup_of (path : Path) : outcome Path :=
  PathLib.with_suffix path (PathLib.suffix path +:+ backup_suffix self).

(** [SERVER_MODULE_TEMPLATE.format(host=..., port=..., model=...)] *)
Definition render_server_module : outcome string :=
  Format.format SERVER_MODULE_TEMPLATE
    [("host", PStr (host self)); ("port", PInt (port self));
     ("model", PStr (model self))].

Definition install_server_module (package_dir : Path) : M Path :=
  let server_path := PathLib.div package_dir "local_model_server.py" in
  let* f := get_fs in
  (if Os.path_exists f server_path && negb (dry_run self) then
     let* backup := lift (backup_of server_path) in
     let* f := get_fs in
     if negb (Os.path_exists f backup) then Os.copy2 server_path backup
     else ret tt
   else ret tt);;
  let* module_text := lift render_server_module in
  _write_file server_path module_text;;
  ret server_path.


Definition MARKER : string := "ensure_local_model_server".

(** The f-string of [inject_bootstrap], before [textwrap.dedent]. *)
Definition injection_source (package_name : string) : string :=
  join nl [
    EmptyString;
    "            # >>> CODEx local model integration (auto-generated)";
    "            try:";
    "                from .local_model_server import ensure_local_model_server  # type: ignore";
    "            except Exception:  # pragma: no cover - fallback for script entrypoints";
    "                from " +:+ package_name +:+
      ".local_model_server import ensure_local_model_server  # type: ignore";
    "            ensure_local_model_server()";
    "            # <<< CODEx local model integration (auto-generated)";
    "            "
  ].

Definition injection (package_name : string) : string :=
  strip_char LF (Textwrap.dedent (injection_source package_name)).

(** The test of the first [if] of the loop: the stripped line is empty
    or starts with a hash, a double quote or a single quote. *)
Definition skippable (stripped : string) : bool :=
  is_empty stripped ||
  startswith "#" stripped || startswith dq stripped || startswith "'" stripped.

Definition import_style (stripped : string) : bool :=
  startswith "import " stripped || startswith "from " stripped.

(** The body of the [for index, line in enumerate(lines)] loop: the
    value of [insert_at] when the loop ends, and whether it ended by
    [break]. *)
Fixpoint scan_lines (insert_at index : nat) (lines : list string)
  : nat * bool :=
  match lines with
  | [] => (insert_at, false)
  | line :: rest =>
      let stripped := strip line in
      if skippable stripped then scan_lines insert_at (S index) rest
      else if import_style stripped then scan_lines (S index) (S index) rest
      else (index, true)
  end.

(** The loop with its [else] clause. *)
Definition insertion_point (lines : list string) : nat :=
  let '(insert_at, broke) := scan_lines 0 0 lines in
  if broke then insert_at else length lines.

Definition patched_text (text package_name : string) : string :=
  let lines := splitlines text in
  let insert_at := insertion_point lines in
  let new_lines :=
    take insert_at lines ++ [injection package_name; EmptyString] ++
    drop insert_at lines in
  join nl new_lines.

Definition inject_bootstrap (entrypoint : Path) (package_name : string)
  : M unit :=
  let* text := Os.read_text entrypoint in
  if contains MARKER text then ret tt
  else
    let new_text := patched_text text package_name in
    if dry_run self then
      Os.print ("[dry-run] Would update " +:+ PathLib.str entrypoint)
    else
      let* backup_path := lift (backup_of entrypoint) in
      let* f := get_fs in
      (if negb (Os.path_exists f backup_path)
       then Os.copy2 entrypoint backup_path
       else ret tt);;
      Os.write_text entrypoint new_text.

Definition MANIFEST_NAME : string := "codex_local_model_integration.json".

Definition manifest_text (relative : list string) : string :=
  Json.dumps_object [
    ("message", Json.dumps_str "Codex has been patched to use a local OLAMA model.");
    ("server_module",
      Json.dumps_str (match relative with [] => "." | _ => join "/" relative end));
    ("host", Json.dumps_str (host self));
    ("port", pretty (port self));
    ("model", Json.dumps_str (model self))
  ] +:+ nl.

Definition create_integration_manifest (root server_path : Path) : M unit :=
  let* relative := lift (PathLib.relative_to server_path root) in
  let manifest_path := PathLib.div root MANIFEST_NAME in
  _write_file manifest_path (manifest_text relative).

Definition run : M Path :=
  let* f := get_fs in
  let* root := lift (locate_codex f) in
  let* package_dir := lift (resolve_package_dir f root) in
  let* entrypoint := lift (resolve_entrypoint f package_dir) in
  let package_name := PathLib.name package_dir in
  let* server_path := install_server_module package_dir in
  inject_bootstrap entrypoint package_name;;
  create_integration_manifest root server_path;;
  ret root.

End Methods.
End Tool.

(** ** Python source text: where string literals begin and end

    The part of CPython's tokenizer that delimits comments and string
    literals, which is what decides whether the text the integrator
    ships can be read as a module at all.  A literal opens at a quote
    character met in code, triple when the quote comes three times in a
    row; inside a literal a backslash takes the next character with it;
    a literal of the short kind must close before its line ends.  Lines
    count from 1.  Prefix letters ([f], [r], [b]) change nothing here. *)

Module PySource.
Import Py.

(** An error names the line where the literal opened (the [lineno] of
    the [SyntaxError]). *)
Inductive lex_error : Type :=
| UnterminatedString (opened : nat)
| UnterminatedTripleQuoted (opened : nat).

Inductive lex_state : Type :=
| InCode
| InComment
| InString (quote : ascii) (opened : nat)
| InTriple (quote : ascii) (opened : nat).

Definition is_quote (c : ascii) : bool := Ascii.eqb c DQ || Ascii.eqb c SQ.

(** The first literal that does not close, scanning [s] from state [st]
    at line [line]; [None] when every literal closes. *)
Fixpoint scan (st : lex_state) (line : nat) (s : string) : option lex_error :=
  match s with
  | EmptyString =>
      match st with
      | InString _ opened => Some (UnterminatedString opened)
      | InTriple _ opened => Some (UnterminatedTripleQuoted opened)
      | _ => None
      end
  | String c rest =>
      match st with
      | InCode =>
          if is_quote c then
            match rest with
            | String c1 (String c2 rest') =>
                if Ascii.eqb c1 c && Ascii.eqb c2 c
                then scan (InTriple c line) line rest'
                else scan (InString c line) line rest
            | _ => scan (InString c line) line rest
            end
          else if Ascii.eqb c "#" then scan InComment line rest
          else if Ascii.eqb c LF then scan InCode (S line) rest
          else scan InCode line rest
      | InComment =>
          if Ascii.eqb c LF then scan InCode (S line) rest
          else scan InComment line rest
      | InString q opened =>
          if Ascii.eqb c BACKSLASH then
            match rest with
            | String c1 rest' =>
                scan (InString q opened)
                     (if Ascii.eqb c1 LF then S line else line) rest'
            | EmptyString => Some (UnterminatedString opened)
            end
          else if Ascii.eqb c q then scan InCode line rest
          else if Ascii.eqb c LF then Some (UnterminatedString opened)
          else scan (InString q opened) line rest
      | InTriple q opened =>
          if Ascii.eqb c BACKSLASH then
            match rest with
            | String c1 rest' =>
                scan (InTriple q opened)
                     (if Ascii.eqb c1 LF then S line else line) rest'
            | EmptyString => Some (UnterminatedTripleQuoted opened)
            end
          else if Ascii.eqb c q then
            match rest with
            | String c1 (String c2 rest') =>
                if Ascii.eqb c1 q && Ascii.eqb c2 q then scan InCode line rest'
                else scan (InTriple q opened) line rest
            | _ => scan (InTriple q opened) line rest
            end
          else if Ascii.eqb c LF then scan (InTriple q opened) (S line) rest
          else scan (InTriple q opened) line rest
      end
  end.

(** The literals of a whole module text; Python reads a module with
    universal newlines. *)
Definition unterminated (text : string) : option lex_error :=
  scan InCode 1 (universal_newlines text).

End PySource.

(** ** Sample installation used by the examples *)

Module Sample.
Import Py Tool.

(** The dataclass defaults of [CodexLocalModelIntegrator]. *)
Definition defaults : CodexLocalModelIntegrator := {|
  codex_root := None;
  model := "llama3";
  host := "127.0.0.1";
  port := 3925;
  dry_run := false;
  backup_suffix := ".bak";
|}.

Definition with_dry_run (self : CodexLocalModelIntegrator) : CodexLocalModelIntegrator := {|
  codex_root := codex_root self;
  model := model self;
  host := host self;
  port := port self;
  dry_run := true;
  backup_suffix := backup_suffix self;
|}.

Definition with_backup_suffix (suffix : string) (self : CodexLocalModelIntegrator)
  : CodexLocalModelIntegrator := {|
  codex_root := codex_root self;
  model := model self;
  host := host self;
  port := port self;
  dry_run := dry_run self;
  backup_suffix := suffix;
|}.

Definition with_codex_root (text : string) (self : CodexLocalModelIntegrator)
  : CodexLocalModelIntegrator := {|
  codex_root := Some text;
  model := model self;
  host := host self;
  port := port self;
  dry_run := dry_run self;
  backup_suffix := backup_suffix self;
|}.

Definition env : os_env := {|
  HOME := ["home"; "dev"];
  cwd := ["home"; "dev"];
  CODEX_INSTALL_DIR := None;
|}.

Definition root : Path := ["opt"; "codex"].
Definition package_dir : Path := ["opt"; "codex"; "codex"].
Definition entrypoint : Path := ["opt"; "codex"; "codex"; "cli.py"].

(** A one-line docstring, three imports, a function definition. *)
Definition cli_lines : list string := [
  unquote "```Codex command line.```";
  "import os";
  "import sys";
  "import json";
  "def main():";
  "    return 0"
].
Definition cli_text : string := join nl cli_lines +:+ nl.

(** The same module with its docstring spread over three lines. *)
Definition cli_long_docstring_lines : list string := [
  unquote "```Codex command line.";
  "Starts the interactive shell.";
  unquote "```";
  "import os";
  "import sys";
  "import json";
  "def main():";
  "    return 0"
].
Definition cli_long_docstring_text : string :=
  join nl cli_long_docstring_lines +:+ nl.

(** User code that already calls a function of that name, without any of
    the marker comments. *)
Definition cli_own_hook_text : string :=
  join nl [
    "from helpers import ensure_local_model_server";
    "ensure_local_model_server()";
    "print(1)"
  ] +:+ nl.

Definition installation_with (entry_text : string) : gmap (list string) node :=
  list_to_map [
    (["opt"], Dir);
    (["opt"; "codex"], Dir);
    (["opt"; "codex"; "codex"], Dir);
    (["opt"; "codex"; "codex"; "__init__.py"], File EmptyString);
    (["opt"; "codex"; "codex"; "cli.py"], File entry_text)
  ].

Definition installation : gmap (list string) node := installation_with cli_text.

(** The installation with an earlier bridge module already in place. *)
Definition installation_with_old_server : gmap (list string) node :=
  <[["opt"; "codex"; "codex"; "local_model_server.py"] := File "# old bridge"]>
    installation.


(** An installation at [/srv/codex] next to the one at the default
    location [/opt/codex]. *)
Definition two_installations : gmap (list string) node :=
  <[["srv"; "codex"] := Dir]> (<[["srv"] := Dir]> installation).

(** The default candidates, resolved for [env]. *)
Definition default_paths : list Path := [
  ["home"; "dev"; ".codex"];
  ["home"; "dev"; "Library"; "Application Support"; "Codex"];
  ["home"; "dev"; "Applications"; "Codex.app"; "Contents"; "Resources"; "app"];
  ["home"; "dev"; "codex"];
  ["usr"; "local"; "lib"; "codex"];
  ["opt"; "codex"]
].

End Sample.

(** ** Reruns *)

(** The world after [k] calls of an operation, whatever each returned. *)
Fixpoint reruns {A : Type} (op : M A) (k : nat) (w : world) : world :=
  match k with
  | O => w
  | S k' => reruns op k' (fst (op w))
  end.

(** Either the backup holds [content], or there is no backup yet and the
    target still holds [content]. *)
Definition backup_is_original (f : gmap (list string) node)
    (target backup : Path) (content : string) : Prop :=
  Os.node_at f backup = Some (File content) \/
  (Os.node_at f backup = None /\ Os.node_at f target = Some (File content)).

(** ** The locator as the specification words it *)

Module Spec.
Import Py Tool.

(** Follows the specification, not the code: of the explicit path, the
    environment path and the default candidates, in that order, the first
    that exists on disk as a directory; when there is none, a NotFound
    error naming all the locations tried. *)
Definition locate_as_specified (self : CodexLocalModelIntegrator) (env : os_env)
    (f : gmap (list string) node) : outcome Path :=
  let texts :=
    option_list (codex_root self) ++ option_list (CODEX_INSTALL_DIR env) ++
    DEFAULT_INSTALL_LOCATIONS in
  let paths :=
    omap (fun text => match expand_resolve env text with
                      | Ok p => Some p
                      | Raise _ => None
                      end) texts in
  match List.find (Os.is_dir f) paths with
  | Some p => Ok p
  | None =>
      Raise (FileNotFoundError (join ", " (PathLib.str <$> paths)))
  end.

End Spec.

(** The texts [locate_codex] tries, in order, when no explicit path is
    given: the environment's directory if it is set and not empty, then
    the defaults. *)
Definition search_texts (env : Tool.os_env) : list string :=
  match Tool.CODEX_INSTALL_DIR env with
  | Some env_dir => if Py.is_empty env_dir then [] else [env_dir]
  | None => []
  end ++ Tool.DEFAULT_INSTALL_LOCATIONS.

Definition NOT_LOCATED : string :=
  "Unable to locate Codex installation. Provide --codex-path explicitly or set CODEX_INSTALL_DIR.".

(** A line the scan of [inject_bootstrap] passes over: blank, starting
    with a hash or a quote, or import-style. *)
Definition passed_over (line : string) : bool :=
  Tool.skippable (Py.strip line) || Tool.import_style (Py.strip line).

(** Three quote characters in a row, which open and close a docstring. *)
Definition triple (quote : ascii) : string :=
  String quote (String quote (Py.char quote)).

(** ** The text the integrator ships as the bridge module *)

(** Line [n] of the template text, counted from 1 as Python counts the
    lines of a module. *)
Definition template_line (n : nat) : option string :=
  Py.split Py.LF Tool.SERVER_MODULE_TEMPLATE !! pred n.

(** The [def] lines of the prompt normalisation and of the request
    handler. *)
Definition NORMALISE_PROMPT_HEADER : string :=
  "def _normalise_prompt(messages: Any, prompt: str | None) -> Tuple[str, str]:".
Definition DO_POST_HEADER : string :=
  "    def do_POST(self) -> None:  # noqa: N802 (http method name)".

(** The [return] statement that ends [_normalise_prompt].  tool.py writes
    it on its line 60 with a backslash and the letter n between two double
    quotes, inside a literal that is not raw: the template holds a line
    feed there, and the statement is these two lines. *)
Definition RETURN_OPENING : string := Py.unquote "    return `".
Definition RETURN_REMAINDER : string := Py.unquote "`.join(rendered), `chat`".

(** ** Vocabulary of the proofs *)

Section Vocabulary.
Import Py.

(** The last character of [m] is not one that [f] strips. *)
Fixpoint last_kept (f : ascii -> bool) (m : string) : bool :=
  match m with
  | EmptyString => false
  | String c EmptyString => negb (f c)
  | String _ m' => last_kept f m'
  end.

(** The first character of [m] is not one that [f] strips. *)
Definition first_kept (f : ascii -> bool) (m : string) : bool :=
  match m with
  | EmptyString => false
  | String c _ => negb (f c)
  end.

(** [m] holds no carriage return. *)
Fixpoint no_cr (m : string) : bool :=
  match m with
  | EmptyString => true
  | String c m' => negb (Ascii.eqb c CR) && no_cr m'
  end.

(** A margin, when there is one, is made of spaces and tabs. *)
Definition ws_margin (margin : option string) : Prop :=
  match margin with
  | Some m => Textwrap.ws_only m = true
  | None => True
  end.

(** The filesystem a call leaves behind when it patches the entrypoint. *)
Definition patched_fs (f : gmap (list string) node) (entrypoint backup : Path)
    (content new_text : string) : gmap (list string) node :=
  <[entrypoint := File new_text]>
    (if Os.path_exists f backup then f else <[backup := File content]> f).

(** The ways a call of [inject_bootstrap] can end: the entrypoint cannot
    be read; its text holds the marker; the run is dry; the backup path
    cannot be formed; the entrypoint is patched. *)
Inductive inject_outcome (self : Tool.CodexLocalModelIntegrator)
    (entrypoint : Path) (package_name : string) (w : world)
  : world * outcome unit -> Prop :=
| inject_unreadable (e : exn) :
    Os.read_text_of (fs w) entrypoint = Raise e ->
    inject_outcome self entrypoint package_name w (w, Raise e)
| inject_marked (text : string) :
    Os.read_text_of (fs w) entrypoint = Ok text ->
    contains Tool.MARKER text = true ->
    inject_outcome self entrypoint package_name w (w, Ok tt)
| inject_dry (text : string) :
    Os.read_text_of (fs w) entrypoint = Ok text ->
    contains Tool.MARKER text = false ->
    Tool.dry_run self = true ->
    inject_outcome self entrypoint package_name w
      (World (fs w)
             (stdout w ++ ["[dry-run] Would update " +:+ PathLib.str entrypoint]),
       Ok tt)
| inject_no_backup_path (text : string) (e : exn) :
    Os.read_text_of (fs w) entrypoint = Ok text ->
    contains Tool.MARKER text = false ->
    Tool.dry_run self = false ->
    Tool.backup_of self entrypoint = Raise e ->
    inject_outcome self entrypoint package_name w (w, Raise e)
| inject_patched (content : string) (backup : Path) :
    Os.node_at (fs w) entrypoint = Some (File content) ->
    contains Tool.MARKER (universal_newlines content) = false ->
    Tool.dry_run self = false ->
    Tool.backup_of self entrypoint = Ok backup ->
    inject_outcome self entrypoint package_name w
      (World (patched_fs (fs w) entrypoint backup content
                (Tool.patched_text (universal_newlines content) package_name))
             (stdout w),
       Ok tt).

(** The path [install_server_module] writes the bridge module to. *)
Definition server_path_of (package_dir : Path) : Path :=
  PathLib.div package_dir "local_model_server.py".

End Vocabulary.

(** Reduce the projections and the boolean tests of a world expression. *)
Ltac step_world := cbn [andb negb fst snd fs stdout].

(** ** The command line entry ([main], after [parse_args]) *)

Module Cli.

Section Main.
(** [str(exc)], the text of an exception. *)
Variable str_exc : exn -> string.

(** [main] from the integrator built of the parsed arguments on: the
    world it leaves, the lines written to standard error, and the exit
    status. *)
Definition main (self : Tool.CodexLocalModelIntegrator) (env : Tool.os_env)
    (w : world) : world * list string * Z :=
  match Tool.run self env w with
  | (w', Raise exc) => (w', ["[ERROR] " +:+ str_exc exc], 1%Z)
  | (w', Ok root) =>
      (World (fs w')
             (stdout w' ++ ["Codex installation patched at " +:+ PathLib.str root]),
       [], 0%Z)
  end.

End Main.
End Cli.

(** The carriage return as a string. *)
Definition cr : string := Py.char Py.CR.

(** ** Further sample worlds *)

Module Fixture.
Import Py Tool.

(** A root directory with nothing in it. *)
Definition bare_root : gmap (list string) node := {[ ["srv"] := Dir ]}.

(** A package whose only Python file has no main guard. *)
Definition package_without_entry : gmap (list string) node :=
  list_to_map [
    (["srv"], Dir);
    (["srv"; "pkg"], Dir);
    (["srv"; "pkg"; "__init__.py"], File EmptyString);
    (["srv"; "pkg"; "util.py"], File "x = 1")
  ].

(** A package whose only entry ending in [.py] is a directory. *)
Definition package_with_py_directory : gmap (list string) node :=
  list_to_map [
    (["srv"], Dir);
    (["srv"; "pkg"], Dir);
    (["srv"; "pkg"; "tools.py"], Dir)
  ].

(** A package whose entrypoint is found by its main guard. *)
Definition package_with_guard : gmap (list string) node :=
  list_to_map [
    (["srv"], Dir);
    (["srv"; "pkg"], Dir);
    (["srv"; "pkg"; "start.py"],
      File ("if " +:+ MAIN_GUARD +:+ ":" +:+ nl +:+ "    run()" +:+ nl))
  ].

Definition with_port (p : Z) (self : CodexLocalModelIntegrator)
  : CodexLocalModelIntegrator := {|
  codex_root := codex_root self;
  model := model self;
  host := host self;
  port := p;
  dry_run := dry_run self;
  backup_suffix := backup_suffix self;
|}.

(** [str(exc)] stand-in. *)
Definition str_exc (e : exn) : string := "<error>".

End Fixture.

(** * Lemmas *)

(** ** Strings: prefixes and occurrences *)

Section StringFacts.
Import Py.

Lemma app_cons_str (c : ascii) (a b : string) :
  String c a +:+ b = String c (a +:+ b).
Proof. reflexivity. Qed.

Lemma app_nil_l_str (b : string) : EmptyString +:+ b = b.
Proof. reflexivity. Qed.

Lemma app_assoc_str (a b c : string) : (a +:+ b) +:+ c = a +:+ (b +:+ c).
Proof.
  induction a as [|x a IH]; [reflexivity |].
  rewrite !app_cons_str. now rewrite IH.
Qed.

Lemma app_nil_r_str (a : string) : a +:+ EmptyString = a.
Proof.
  induction a as [|x a IH]; [reflexivity |].
  rewrite app_cons_str. now rewrite IH.
Qed.

Lemma startswith_app (m b : string) : startswith m (m +:+ b) = true.
Proof.
  induction m as [|x m IH]; [reflexivity |].
  rewrite app_cons_str. simpl. now rewrite Ascii.eqb_refl.
Qed.

Lemma startswith_inv (m s : string) :
  startswith m s = true -> exists b, s = m +:+ b.
Proof.
  revert s. induction m as [|x m IH]; intros s H.
  - now exists s.
  - destruct s as [|y s]; [discriminate |]. simpl in H.
    destruct (Ascii.eqb x y) eqn:E; [| discriminate].
    apply Ascii.eqb_eq in E. subst y.
    destruct (IH _ H) as [b ->]. now exists b.
Qed.

Lemma startswith_app_r (m x b : string) :
  startswith m x = true -> startswith m (x +:+ b) = true.
Proof.
  intros H. destruct (startswith_inv _ _ H) as [t ->].
  rewrite app_assoc_str. apply startswith_app.
Qed.

Lemma contains_unfold (m : string) (a : ascii) (s : string) :
  contains m (String a s) = startswith m (String a s) || contains m s.
Proof. reflexivity. Qed.

Lemma contains_startswith (m s : string) :
  startswith m s = true -> contains m s = true.
Proof. intros H. destruct s; simpl in *; rewrite H; reflexivity. Qed.

Lemma contains_cons (m : string) (a : ascii) (s : string) :
  contains m s = true -> contains m (String a s) = true.
Proof. intros H. rewrite contains_unfold, H. apply orb_true_r. Qed.

Lemma contains_app_l (m a x : string) :
  contains m x = true -> contains m (a +:+ x) = true.
Proof.
  intros H. induction a as [|c a IH]; [exact H |].
  rewrite app_cons_str. now apply contains_cons.
Qed.

Lemma contains_app_r (m x b : string) :
  contains m x = true -> contains m (x +:+ b) = true.
Proof.
  induction x as [|c x IH]; intros H.
  - simpl in H. rewrite orb_false_r in H.
    destruct m; [| discriminate]. destruct b; reflexivity.
  - rewrite contains_unfold in H.
    apply orb_true_iff in H. destruct H as [H | H].
    + apply contains_startswith. now apply startswith_app_r.
    + rewrite app_cons_str. apply contains_cons. now apply IH.
Qed.

Lemma contains_nonempty (m s : string) :
  is_empty m = false -> contains m s = true -> is_empty s = false.
Proof. destruct m, s; simpl; intros; congruence. Qed.

(** An element of a joined list is a part of the result. *)
Lemma join_elem (sep x : string) (l1 l2 : list string) :
  exists a b, join sep (l1 ++ x :: l2) = a +:+ x +:+ b.
Proof.
  induction l1 as [|y l1 IH].
  - destruct l2 as [|z l2].
    + exists EmptyString, EmptyString. simpl. now rewrite app_nil_r_str.
    + exists EmptyString, (sep +:+ join sep (z :: l2)). reflexivity.
  - destruct IH as (a & b & E).
    change ((y :: l1) ++ x :: l2) with (y :: (l1 ++ x :: l2)).
    destruct (l1 ++ x :: l2) as [|z rest] eqn:El.
    + destruct l1; discriminate.
    + exists (y +:+ sep +:+ a), b.
      change (join sep (y :: z :: rest)) with (y +:+ sep +:+ join sep (z :: rest)).
      rewrite E. now rewrite !app_assoc_str.
Qed.

Lemma contains_join (m sep x : string) (l1 l2 : list string) :
  contains m x = true -> contains m (join sep (l1 ++ x :: l2)) = true.
Proof.
  intros H. destruct (join_elem sep x l1 l2) as (a & b & ->).
  apply contains_app_l, contains_app_r, H.
Qed.


(** *** Stripping keeps an occurrence whose ends are not stripped *)



Lemma startswith_first (f : ascii -> bool) (m : string) (a : ascii) (s : string) :
  first_kept f m = true -> f a = true -> startswith m (String a s) = false.
Proof.
  destruct m as [|c m]; [discriminate |]. simpl. intros Hc Ha.
  destruct (Ascii.eqb c a) eqn:E; [| reflexivity].
  apply Ascii.eqb_eq in E. subst. rewrite Ha in Hc. discriminate.
Qed.

Lemma contains_lstrip (f : ascii -> bool) (m s : string) :
  first_kept f m = true ->
  contains m s = true -> contains m (lstrip_by f s) = true.
Proof.
  intros Hm. induction s as [|a s IH]; intros H; [exact H |].
  simpl lstrip_by. destruct (f a) eqn:Ha; [| exact H].
  rewrite contains_unfold, (startswith_first f m a s Hm Ha) in H.
  now apply IH.
Qed.

Lemma startswith_rstrip (f : ascii -> bool) (m s : string) :
  last_kept f m = true ->
  startswith m s = true -> startswith m (rstrip_by f s) = true.
Proof.
  revert s. induction m as [|c m IH]; intros s Hm H; [discriminate |].
  destruct s as [|a s]; [discriminate |]. simpl in H.
  destruct (Ascii.eqb c a) eqn:E; [| discriminate].
  apply Ascii.eqb_eq in E. subst a. simpl rstrip_by.
  destruct m as [|c' m].
  - simpl in Hm. apply negb_true_iff in Hm. rewrite Hm. simpl.
    now rewrite Ascii.eqb_refl.
  - assert (Hr : startswith (String c' m) (rstrip_by f s) = true)
      by (apply IH; [exact Hm | exact H]).
    destruct (rstrip_by f s) as [|r rs] eqn:Er; [discriminate |].
    rewrite andb_false_r. simpl. rewrite Ascii.eqb_refl. exact Hr.
Qed.

Lemma contains_rstrip (f : ascii -> bool) (m s : string) :
  last_kept f m = true ->
  contains m s = true -> contains m (rstrip_by f s) = true.
Proof.
  intros Hm. induction s as [|a s IH]; intros H.
  - destruct m; [discriminate | discriminate].
  - rewrite contains_unfold in H. apply orb_true_iff in H.
    destruct H as [H | H].
    + apply contains_startswith. now apply startswith_rstrip.
    + specialize (IH H). simpl rstrip_by.
      destruct (rstrip_by f s) as [|r rs] eqn:Er.
      * destruct m; discriminate.
      * rewrite andb_false_r. now apply contains_cons.
Qed.

Lemma contains_strip_by (f : ascii -> bool) (m s : string) :
  first_kept f m = true -> last_kept f m = true ->
  contains m s = true -> contains m (strip_by f s) = true.
Proof.
  intros Hf Hl H. unfold strip_by.
  apply contains_rstrip; [exact Hl |]. now apply contains_lstrip.
Qed.

(** *** Universal newlines keep an occurrence that holds no carriage return *)


Lemma universal_newlines_cons (a : ascii) (s : string) :
  Ascii.eqb a CR = false ->
  universal_newlines (String a s) = String a (universal_newlines s).
Proof. intros H. simpl. now rewrite H. Qed.

Lemma startswith_universal_newlines (m s : string) :
  no_cr m = true ->
  startswith m s = true -> startswith m (universal_newlines s) = true.
Proof.
  revert s. induction m as [|c m IH]; intros s Hm H; [reflexivity |].
  destruct s as [|a s]; [discriminate |]. simpl in H, Hm.
  destruct (Ascii.eqb c a) eqn:E; [| discriminate].
  apply Ascii.eqb_eq in E. subst a.
  apply andb_true_iff in Hm. destruct Hm as [Hc Hm].
  apply negb_true_iff in Hc.
  rewrite universal_newlines_cons by exact Hc.
  simpl. rewrite Ascii.eqb_refl. now apply IH.
Qed.

Lemma contains_universal_newlines_len (m : string) (n : nat) :
  no_cr m = true -> first_kept (Ascii.eqb LF) m = true ->
  forall s, String.length s <= n ->
  contains m s = true -> contains m (universal_newlines s) = true.
Proof.
  intros Hm Hf. induction n as [|n IH]; intros s Hlen H.
  - destruct s; [| simpl in Hlen; lia]. destruct m; discriminate.
  - destruct s as [|a s]; [destruct m; discriminate |].
    simpl in Hlen. rewrite contains_unfold in H.
    apply orb_true_iff in H. destruct H as [H | H].
    { apply contains_startswith. now apply startswith_universal_newlines. }
    destruct (Ascii.eqb a CR) eqn:Ea.
    + simpl universal_newlines. rewrite Ea.
      destruct s as [|b s]; [destruct m; discriminate |].
      destruct (Ascii.eqb b LF) eqn:Eb.
      * apply contains_cons. apply IH; [simpl in Hlen; lia |].
        rewrite contains_unfold in H.
        rewrite (startswith_first (Ascii.eqb LF) m b s Hf) in H; [exact H |].
        now rewrite Ascii.eqb_sym.
      * apply contains_cons. apply IH; [lia | exact H].
    + rewrite universal_newlines_cons by exact Ea.
      apply contains_cons. apply IH; [lia | exact H].
Qed.

Lemma contains_universal_newlines (m s : string) :
  no_cr m = true -> first_kept (Ascii.eqb LF) m = true ->
  contains m s = true -> contains m (universal_newlines s) = true.
Proof.
  intros Hm Hf. now apply (contains_universal_newlines_len m (String.length s)).
Qed.

End StringFacts.

(** ** The injected block always names the bootstrap function *)

Section InjectionFacts.
Import Py Textwrap Tool.

Lemma split_aux_app (c : ascii) (a b cur : string) :
  split_aux c cur (a +:+ String c b) =
  split_aux c cur a ++ split_aux c EmptyString b.
Proof.
  revert cur. induction a as [|x a IH]; intros cur.
  - rewrite app_nil_l_str. simpl. now rewrite Ascii.eqb_refl.
  - rewrite app_cons_str. simpl.
    destruct (Ascii.eqb x c); [now rewrite IH | apply IH].
Qed.

Lemma join_app (sep : string) (l1 l2 : list string) :
  l1 <> [] -> l2 <> [] ->
  join sep (l1 ++ l2) = join sep l1 +:+ sep +:+ join sep l2.
Proof.
  intros H1 H2. induction l1 as [|x l1 IH]; [congruence |].
  destruct l1 as [|y l1].
  - destruct l2 as [|z l2]; [congruence | reflexivity].
  - change (join sep ((x :: y :: l1) ++ l2))
      with (x +:+ sep +:+ join sep ((y :: l1) ++ l2)).
    rewrite IH by discriminate.
    change (join sep (x :: y :: l1)) with (x +:+ sep +:+ join sep (y :: l1)).
    now rewrite !app_assoc_str.
Qed.

Lemma split_join_app (l1 l2 : list string) :
  l1 <> [] -> l2 <> [] ->
  split LF (join nl (l1 ++ l2)) = split LF (join nl l1) ++ split LF (join nl l2).
Proof.
  intros H1 H2. rewrite join_app by assumption.
  unfold split. change (nl +:+ join nl l2) with (String LF (join nl l2)).
  apply split_aux_app.
Qed.

Lemma ws_only_indent_of (l : string) : ws_only (indent_of l) = true.
Proof.
  induction l as [|a l IH]; [reflexivity |].
  simpl. destruct (is_blank a) eqn:E; [| reflexivity].
  simpl. now rewrite E.
Qed.

Lemma ws_only_common_prefix (a b : string) :
  ws_only a = true -> ws_only (common_prefix a b) = true.
Proof.
  revert b. induction a as [|x a IH]; intros b H; [reflexivity |].
  destruct b as [|y b]; [reflexivity |]. simpl in *.
  apply andb_true_iff in H. destruct H as [Hx Ha].
  destruct (Ascii.eqb x y); [| reflexivity].
  simpl. rewrite Hx. now apply IH.
Qed.


Lemma margin_of_ws (lines : list string) (m0 : option string) :
  ws_margin m0 -> ws_margin (margin_of m0 lines).
Proof.
  revert m0. induction lines as [|l lines IH]; intros m0 H; [exact H |].
  simpl. destruct (ws_only l); [now apply IH |].
  destruct m0 as [m|]; apply IH; simpl.
  - now apply ws_only_common_prefix.
  - apply ws_only_indent_of.
Qed.

(** Removing a whitespace margin from an indented line leaves its text. *)
Lemma slice_margin (pad t m : string) :
  ws_only m = true ->
  first_kept is_blank t = true ->
  startswith m (pad +:+ t) = true ->
  exists pad', slice_from (String.length m) (pad +:+ t) = pad' +:+ t.
Proof.
  revert m. induction pad as [|p pad IH]; intros m Hm Ht Hs.
  - destruct m as [|c m]; [now exists EmptyString |].
    rewrite app_nil_l_str in Hs. simpl in Hm.
    apply andb_true_iff in Hm. destruct Hm as [Hc _].
    destruct t as [|x t]; [discriminate |]. simpl in Ht, Hs.
    destruct (Ascii.eqb c x) eqn:E; [| discriminate].
    apply Ascii.eqb_eq in E. subst x.
    rewrite Hc in Ht. discriminate.
  - destruct m as [|c m]; [now exists (String p pad) |].
    rewrite app_cons_str in Hs |- *. simpl in Hs, Hm |- *.
    destruct (Ascii.eqb c p); [| discriminate].
    apply andb_true_iff in Hm. destruct Hm as [_ Hm].
    now apply IH.
Qed.

Lemma remove_margin_call (margin : option string) :
  ws_margin margin ->
  contains MARKER
    (remove_margin margin "            ensure_local_model_server()") = true.
Proof.
  intros H. destruct margin as [m|]; [| reflexivity].
  simpl in H. unfold remove_margin.
  destruct (startswith m _) eqn:Hs; [| reflexivity].
  destruct (slice_margin "            " "ensure_local_model_server()" m H
              eq_refl Hs) as [pad' E].
  change ("            " +:+ "ensure_local_model_server()")
    with "            ensure_local_model_server()" in E.
  rewrite E. now apply contains_app_l.
Qed.

Lemma dedent_keeps_marker (package_name : string) :
  contains MARKER (dedent (injection_source package_name)) = true.
Proof.
  unfold dedent, injection_source.
  match goal with
  | |- context [join nl (?a :: ?b :: ?c :: ?d :: ?e :: ?f :: ?t)] =>
      change (a :: b :: c :: d :: e :: f :: t) with ([a; b; c; d; e; f] ++ t)
  end.
  rewrite split_join_app by discriminate.
  match goal with
  | |- context [split LF (join nl [?g; ?h; ?i])] =>
      change (split LF (join nl [g; h; i])) with ([g] ++ [h; i])
  end.
  set (head := split LF _).
  rewrite !fmap_app.
  set (margin := margin_of None _).
  assert (Hm : ws_margin margin) by (apply margin_of_ws; exact I).
  rewrite <- fmap_app.
  change (remove_margin margin <$> (blank_ws_only <$> head) ++
          ((blank_ws_only <$> ["            ensure_local_model_server()"]) ++
           (blank_ws_only <$> ["            # <<< CODEx local model integration (auto-generated)"; "            "])))
    with ((remove_margin margin <$> (blank_ws_only <$> head)) ++
          remove_margin margin "            ensure_local_model_server()" ::
          (remove_margin margin <$>
             (blank_ws_only <$> ["            # <<< CODEx local model integration (auto-generated)"; "            "]))).
  apply contains_join. now apply remove_margin_call.
Qed.

Lemma injection_contains_marker (package_name : string) :
  contains MARKER (injection package_name) = true.
Proof.
  unfold injection, strip_char.
  apply contains_strip_by; [reflexivity | reflexivity |].
  apply dedent_keeps_marker.
Qed.
End InjectionFacts.

(** ** What one call of [inject_bootstrap] does to the world *)

Section InjectFacts.
Import Py Tool.

Lemma read_text_of_file (f : gmap (list string) node) (p : Path) (text : string) :
  Os.read_text_of f p = Ok text ->
  exists content, Os.node_at f p = Some (File content) /\
                  text = universal_newlines content.
Proof.
  unfold Os.read_text_of. destruct (Os.node_at f p) as [[c|]|]; intros H;
    inversion H. now exists c.
Qed.

Lemma node_at_insert_ne (f : gmap (list string) node) (p q : Path) (n : node) :
  p <> q -> Os.node_at (<[p := n]> f) q = Os.node_at f q.
Proof.
  intros H. destruct q as [|c q]; [reflexivity |].
  simpl. now rewrite lookup_insert_ne.
Qed.

Lemma node_at_insert_eq (f : gmap (list string) node) (p : Path) (n : node) :
  p <> [] -> Os.node_at (<[p := n]> f) p = Some n.
Proof.
  intros H. destruct p as [|c p]; [congruence |].
  simpl. now rewrite lookup_insert_eq.
Qed.

Lemma node_at_file_nonroot (f : gmap (list string) node) (p : Path) (c : string) :
  Os.node_at f p = Some (File c) -> p <> [].
Proof. destruct p; [discriminate | discriminate]. Qed.


Lemma inject_bootstrap_unreadable self entrypoint package_name w e :
  Os.read_text_of (fs w) entrypoint = Raise e ->
  inject_bootstrap self entrypoint package_name w = (w, Raise e).
Proof.
  intros H. unfold inject_bootstrap, Os.read_text, bind, get_fs, lift.
  now rewrite H.
Qed.

Lemma inject_bootstrap_marked self entrypoint package_name w text :
  Os.read_text_of (fs w) entrypoint = Ok text ->
  contains MARKER text = true ->
  inject_bootstrap self entrypoint package_name w = (w, Ok tt).
Proof.
  intros H Hm. unfold inject_bootstrap, Os.read_text, bind, get_fs, lift.
  now rewrite H, Hm.
Qed.

Lemma inject_bootstrap_dry self entrypoint package_name w text :
  Os.read_text_of (fs w) entrypoint = Ok text ->
  contains MARKER text = false ->
  dry_run self = true ->
  inject_bootstrap self entrypoint package_name w =
  (World (fs w) (stdout w ++ ["[dry-run] Would update " +:+ PathLib.str entrypoint]),
   Ok tt).
Proof.
  intros H Hm Hd. unfold inject_bootstrap, Os.read_text, bind, get_fs, lift.
  now rewrite H, Hm, Hd.
Qed.

Lemma inject_bootstrap_no_backup_path self entrypoint package_name w text e :
  Os.read_text_of (fs w) entrypoint = Ok text ->
  contains MARKER text = false ->
  dry_run self = false ->
  backup_of self entrypoint = Raise e ->
  inject_bootstrap self entrypoint package_name w = (w, Raise e).
Proof.
  intros H Hm Hd Hb. unfold inject_bootstrap, Os.read_text, bind, get_fs, lift.
  now rewrite H, Hm, Hd, Hb.
Qed.

Lemma inject_bootstrap_patches self entrypoint package_name w content backup :
  Os.node_at (fs w) entrypoint = Some (File content) ->
  contains MARKER (universal_newlines content) = false ->
  dry_run self = false ->
  backup_of self entrypoint = Ok backup ->
  inject_bootstrap self entrypoint package_name w =
  (World (patched_fs (fs w) entrypoint backup content
            (patched_text (universal_newlines content) package_name))
         (stdout w),
   Ok tt).
Proof.
  intros Hn Hm Hd Hb.
  pose proof (node_at_file_nonroot _ _ _ Hn) as Hne.
  unfold inject_bootstrap, Os.read_text, Os.read_text_of, bind, get_fs, lift.
  rewrite Hn, Hm, Hd, Hb. unfold patched_fs.
  destruct (Os.path_exists (fs w) backup) eqn:Hex; simpl.
  - unfold ret, Os.write_text, bind, get_fs, put_fs. simpl. now rewrite Hn.
  - assert (Hbe : backup <> entrypoint).
    { intros ->. unfold Os.path_exists in Hex. now rewrite Hn in Hex. }
    unfold Os.copy2, Os.write_text, bind, get_fs, put_fs. simpl.
    rewrite Hn.
    unfold Os.path_exists in Hex.
    destruct (Os.node_at (fs w) backup) eqn:Hnb; [discriminate |].
    simpl. rewrite node_at_insert_ne by exact Hbe. now rewrite Hn.
Qed.

(** Every call ends in one of the five ways. *)
Lemma inject_bootstrap_outcome self entrypoint package_name w :
  inject_outcome self entrypoint package_name w
    (inject_bootstrap self entrypoint package_name w).
Proof.
  destruct (Os.read_text_of (fs w) entrypoint) as [text|e] eqn:Hr.
  2:{ rewrite (inject_bootstrap_unreadable _ _ _ _ _ Hr). now constructor. }
  destruct (contains MARKER text) eqn:Hm.
  { rewrite (inject_bootstrap_marked _ _ _ _ _ Hr Hm). now apply inject_marked with text. }
  destruct (dry_run self) eqn:Hd.
  { rewrite (inject_bootstrap_dry _ _ _ _ _ Hr Hm Hd). now apply inject_dry with text. }
  destruct (backup_of self entrypoint) as [backup|e] eqn:Hb.
  2:{ rewrite (inject_bootstrap_no_backup_path _ _ _ _ _ _ Hr Hm Hd Hb).
      now apply inject_no_backup_path with text. }
  destruct (read_text_of_file _ _ _ Hr) as (content & Hn & ->).
  rewrite (inject_bootstrap_patches _ _ package_name _ _ _ Hn Hm Hd Hb).
  now constructor.
Qed.

End InjectFacts.

(** ** Rendering the template, installing the module, running *)

Section InstallFacts.
Import Py Tool.

(** The template holds replacement fields other than the three the
    integrator supplies; the first of them is [{role.upper()}]. *)
Lemma format_template_key_error (self : CodexLocalModelIntegrator) :
  render_server_module self = Raise (KeyError "role").
Proof. vm_compute. reflexivity. Qed.


(** A call either leaves the filesystem alone or adds one backup file at a
    path where nothing was; it prints nothing and always raises. *)
Lemma install_server_module_effect self package_dir w :
  exists e,
    snd (install_server_module self package_dir w) = Raise e /\
    stdout (fst (install_server_module self package_dir w)) = stdout w /\
    (fs (fst (install_server_module self package_dir w)) = fs w \/
     exists backup content,
       dry_run self = false /\
       backup_of self (server_path_of package_dir) = Ok backup /\
       Os.node_at (fs w) (server_path_of package_dir) = Some (File content) /\
       Os.node_at (fs w) backup = None /\
       fs (fst (install_server_module self package_dir w)) =
         <[backup := File content]> (fs w)).
Proof.
  unfold install_server_module. fold (server_path_of package_dir).
  set (sp := server_path_of package_dir).
  rewrite format_template_key_error.
  destruct w as [f out].
  unfold Os.copy2, Os.path_exists.
  unfold bind, get_fs, lift, ret, put_fs, raise.
  cbn [fs stdout].
  destruct (Os.node_at f sp) as [[content|]|] eqn:Hn; step_world.
  - destruct (dry_run self) eqn:Hdry; step_world.
    { exists (KeyError "role"). auto. }
    destruct (backup_of self sp) as [backup|e] eqn:Hb;
      step_world; [| exists e; auto].
    destruct (Os.node_at f backup) as [n|] eqn:Hnb;
      step_world; rewrite ?Hn, ?Hnb;
      step_world.
    + exists (KeyError "role"). auto.
    + exists (KeyError "role").
      split; [reflexivity |]. split; [reflexivity |].
      right. exists backup, content. auto.
  - destruct (dry_run self) eqn:Hdry; step_world.
    { exists (KeyError "role"). auto. }
    destruct (backup_of self sp) as [backup|e] eqn:Hb;
      step_world; [| exists e; auto].
    destruct (Os.node_at f backup) as [n|] eqn:Hnb;
      step_world; rewrite ?Hn, ?Hnb;
      step_world.
    + exists (KeyError "role"). auto.
    + exists (IsADirectoryError sp). auto.
  - exists (KeyError "role"). auto.
Qed.

Lemma install_server_module_keeps self package_dir w p n :
  Os.node_at (fs w) p = Some n ->
  Os.node_at (fs (fst (install_server_module self package_dir w))) p = Some n.
Proof.
  intros Hp.
  destruct (install_server_module_effect self package_dir w)
    as (e & _ & _ & [-> | (backup & content & _ & _ & _ & Hnone & ->)]);
    [exact Hp |].
  rewrite node_at_insert_ne; [exact Hp |].
  intros ->. rewrite Hp in Hnone. discriminate.
Qed.

Lemma install_server_module_dry self package_dir w :
  dry_run self = true ->
  fs (fst (install_server_module self package_dir w)) = fs w.
Proof.
  intros Hd.
  destruct (install_server_module_effect self package_dir w)
    as (e & _ & _ & [-> | (backup & content & Hnd & _)]); [reflexivity |].
  rewrite Hd in Hnd. discriminate.
Qed.

Lemma bind_raise {A B} (c : M A) (k : A -> M B) (w w' : world) (e : exn) :
  c w = (w', Raise e) -> bind c k w = (w', Raise e).
Proof. intros H. unfold bind. now rewrite H. Qed.

Lemma bind_ok {A B} (c : M A) (k : A -> M B) (w w' : world) (a : A) :
  c w = (w', Ok a) -> bind c k w = k a w'.
Proof. intros H. unfold bind. now rewrite H. Qed.

(** [run] by cases on what the discovery finds. *)
Lemma run_unfold self env w :
  run self env w =
  match locate_codex self env (fs w) with
  | Raise e => (w, Raise e)
  | Ok root =>
      match resolve_package_dir (fs w) root with
      | Raise e => (w, Raise e)
      | Ok package_dir =>
          match resolve_entrypoint (fs w) package_dir with
          | Raise e => (w, Raise e)
          | Ok entrypoint =>
              bind (install_server_module self package_dir)
                (fun server_path =>
                   inject_bootstrap self entrypoint (PathLib.name package_dir);;
                   create_integration_manifest self root server_path;;
                   ret root) w
          end
      end
  end.
Proof.
  unfold run.
  unfold bind at 1. unfold get_fs at 1. cbv beta iota zeta.
  unfold bind at 1. unfold lift at 1. cbv beta iota zeta.
  destruct (locate_codex self env (fs w)) as [root|e]; [| reflexivity].
  unfold bind at 1. unfold lift at 1. cbv beta iota zeta.
  destruct (resolve_package_dir (fs w) root) as [package_dir|e]; [| reflexivity].
  unfold bind at 1. unfold lift at 1. cbv beta iota zeta.
  destruct (resolve_entrypoint (fs w) package_dir) as [entrypoint|e];
    reflexivity.
Qed.

(** [run] stops in [install_server_module] at the latest. *)
Lemma run_effect self env w :
  exists e,
    snd (run self env w) = Raise e /\
    stdout (fst (run self env w)) = stdout w /\
    (fs (fst (run self env w)) = fs w \/
     exists package_dir,
       fst (run self env w) = fst (install_server_module self package_dir w)).
Proof.
  rewrite run_unfold.
  destruct (locate_codex self env (fs w)) as [root|e];
    [| exists e; cbn [fst snd]; auto].
  destruct (resolve_package_dir (fs w) root) as [package_dir|e];
    [| exists e; cbn [fst snd]; auto].
  destruct (resolve_entrypoint (fs w) package_dir) as [entrypoint|e];
    [| exists e; cbn [fst snd]; auto].
  destruct (install_server_module_effect self package_dir w)
    as (e & Hr & Hout & _).
  destruct (install_server_module self package_dir w) as [w' r] eqn:Hi.
  cbn [fst snd] in Hr, Hout. subst r.
  rewrite (bind_raise _ _ _ _ _ Hi).
  exists e. cbn [fst snd]. split; [reflexivity |]. split; [exact Hout |].
  right. exists package_dir. now rewrite Hi.
Qed.

End InstallFacts.

(** * Properties *)

Section Claims.
Import Py Tool.

(** C10.  The idempotency guard is a substring test on the bootstrap
    function's name: whenever the text read from the entrypoint contains
    [ensure_local_model_server] anywhere, [inject_bootstrap] returns at
    once; the world is left as it was, so the entrypoint is unchanged, no
    backup file is created and nothing is printed. *)
Theorem inject_bootstrap_guard_is_substring
    (self : CodexLocalModelIntegrator) (entrypoint : Path)
    (package_name : string) (w : world) (content : string) :
  Os.node_at (fs w) entrypoint = Some (File content) ->
  contains "ensure_local_model_server" (universal_newlines content) = true ->
  inject_bootstrap self entrypoint package_name w = (w, Ok tt).
Proof.
  intros Hn Hm.
  apply (inject_bootstrap_marked self entrypoint package_name w
           (universal_newlines content)); [| exact Hm].
  unfold Os.read_text_of. now rewrite Hn.
Qed.

Lemma inject_bootstrap_guard_witness :
  inject_bootstrap Sample.defaults Sample.entrypoint "codex"
    (World (Sample.installation_with Sample.cli_own_hook_text) []) =
  (World (Sample.installation_with Sample.cli_own_hook_text) [], Ok tt).
Proof.
  apply (inject_bootstrap_guard_is_substring Sample.defaults Sample.entrypoint
           "codex" (World (Sample.installation_with Sample.cli_own_hook_text) [])
           Sample.cli_own_hook_text); vm_compute; reflexivity.
Defined.

Lemma patched_text_contains_marker (text package_name : string) :
  contains MARKER (universal_newlines (patched_text text package_name)) = true.
Proof.
  apply contains_universal_newlines; [reflexivity | reflexivity |].
  unfold patched_text.
  change ([injection package_name; EmptyString] ++
          drop (insertion_point (splitlines text)) (splitlines text))
    with (injection package_name ::
          EmptyString :: drop (insertion_point (splitlines text)) (splitlines text)).
  apply contains_join, injection_contains_marker.
Qed.

Lemma inject_bootstrap_twice self entrypoint package_name w :
  fs (fst (inject_bootstrap self entrypoint package_name
             (fst (inject_bootstrap self entrypoint package_name w)))) =
  fs (fst (inject_bootstrap self entrypoint package_name w)).
Proof.
  destruct (inject_bootstrap_outcome self entrypoint package_name w)
    as [e Hr | text Hr Hm | text Hr Hm Hd | text e Hr Hm Hd Hb
        | content backup Hn Hm Hd Hb]; cbn [fst].
  - now rewrite (inject_bootstrap_unreadable _ _ _ _ _ Hr).
  - now rewrite (inject_bootstrap_marked _ _ _ _ _ Hr Hm).
  - match goal with
    | |- context [inject_bootstrap _ _ _ ?w'] =>
        now rewrite (inject_bootstrap_dry self entrypoint package_name w' text Hr Hm Hd)
    end.
  - now rewrite (inject_bootstrap_no_backup_path _ _ _ _ _ _ Hr Hm Hd Hb).
  - erewrite inject_bootstrap_marked; [reflexivity | |].
    + cbn [fs]. unfold Os.read_text_of, patched_fs.
      rewrite node_at_insert_eq by (eapply node_at_file_nonroot; exact Hn).
      reflexivity.
    + apply patched_text_contains_marker.
Qed.

Lemma run_keeps self env w p n :
  Os.node_at (fs w) p = Some n ->
  Os.node_at (fs (fst (run self env w))) p = Some n.
Proof.
  intros Hp.
  destruct (run_effect self env w) as (e & _ & _ & [-> | (package_dir & ->)]);
    [exact Hp |].
  now apply install_server_module_keeps.
Qed.

(** C1.  Idempotence of the patch.  A second call of [inject_bootstrap]
    on the world the first call left behind changes no file: the text it
    reads back holds the injected block, so the guard returns at once and
    no second block is added.  A second [run] likewise leaves every file
    that exists after the first run, the entrypoint among them, exactly as
    it is. *)
Theorem second_run_leaves_entrypoint_identical (self : CodexLocalModelIntegrator) :
  (forall (entrypoint : Path) (package_name : string) (w : world),
     let once := fst (inject_bootstrap self entrypoint package_name w) in
     fs (fst (inject_bootstrap self entrypoint package_name once)) = fs once) /\
  (forall (env : os_env) (w : world) (p : Path) (n : node),
     let once := fst (run self env w) in
     Os.node_at (fs once) p = Some n ->
     Os.node_at (fs (fst (run self env once))) p = Some n).
Proof.
  split.
  - intros entrypoint package_name w. apply inject_bootstrap_twice.
  - intros env w p n once Hp. now apply run_keeps.
Qed.

Lemma second_run_witness :
  (let once := fst (inject_bootstrap Sample.defaults Sample.entrypoint "codex"
                      (World Sample.installation [])) in
   fs (fst (inject_bootstrap Sample.defaults Sample.entrypoint "codex" once)) =
   fs once) /\
  Os.node_at
    (fs (fst (run Sample.defaults Sample.env
                (fst (run Sample.defaults Sample.env
                        (World Sample.installation []))))))
    Sample.entrypoint = Some (File Sample.cli_text).
Proof.
  split.
  - apply (proj1 (second_run_leaves_entrypoint_identical Sample.defaults)).
  - apply (proj2 (second_run_leaves_entrypoint_identical Sample.defaults)
             Sample.env (World Sample.installation []) Sample.entrypoint
             (File Sample.cli_text)).
    vm_compute. reflexivity.
Defined.

(** C2.  What the code does where the claim expects the bridge module to
    be rewritten: for every configuration, package directory and world,
    [install_server_module] raises, and the node at
    [local_model_server.py] is after the call what it was before; the
    module is never written, so a changed port never reaches the file. *)
Theorem install_server_module_never_writes
    (self : CodexLocalModelIntegrator) (package_dir : Path) (w : world) :
  (exists e, snd (install_server_module self package_dir w) = Raise e) /\
  Os.node_at (fs (fst (install_server_module self package_dir w)))
             (PathLib.div package_dir "local_model_server.py") =
  Os.node_at (fs w) (PathLib.div package_dir "local_model_server.py").
Proof.
  destruct (install_server_module_effect self package_dir w)
    as (e & Hr & _ & Hfs).
  split; [now exists e |].
  destruct Hfs as [-> | (backup & content & _ & _ & Hn & Hnone & ->)];
    [reflexivity |].
  apply node_at_insert_ne. intros ->.
  unfold server_path_of in Hn. rewrite Hn in Hnone. discriminate.
Qed.

(** C3.  Rendering the template yields no content at all: for every host,
    port and model, [SERVER_MODULE_TEMPLATE.format] raises [KeyError] on
    the field [{role.upper()}], the first one that is not among the three
    keyword arguments. *)
Theorem render_server_module_yields_no_content (self : CodexLocalModelIntegrator) :
  render_server_module self = Raise (KeyError "role") /\
  forall content, render_server_module self <> Ok content.
Proof.
  rewrite format_template_key_error. split; [reflexivity | discriminate].
Qed.

Lemma inject_bootstrap_dry_keeps_fs self entrypoint package_name w :
  dry_run self = true ->
  fs (fst (inject_bootstrap self entrypoint package_name w)) = fs w.
Proof.
  intros Hd.
  destruct (inject_bootstrap_outcome self entrypoint package_name w);
    try reflexivity.
  congruence.
Qed.

Lemma create_integration_manifest_dry_keeps_fs self root server_path w :
  dry_run self = true ->
  fs (fst (create_integration_manifest self root server_path w)) = fs w.
Proof.
  intros Hd. unfold create_integration_manifest, _write_file, bind, lift.
  rewrite Hd. now destruct (PathLib.relative_to server_path root).
Qed.

(** Taken one by one, the three writing operations leave the filesystem
    alone in a dry run. *)
Lemma dry_run_operations_keep_fs self w :
  dry_run self = true ->
  (forall package_dir,
     fs (fst (install_server_module self package_dir w)) = fs w) /\
  (forall entrypoint package_name,
     fs (fst (inject_bootstrap self entrypoint package_name w)) = fs w) /\
  (forall root server_path,
     fs (fst (create_integration_manifest self root server_path w)) = fs w).
Proof.
  intros Hd. split; [| split]; intros.
  - now apply install_server_module_dry.
  - now apply inject_bootstrap_dry_keeps_fs.
  - now apply create_integration_manifest_dry_keeps_fs.
Qed.

(** C9.  What a dry run does: it writes nothing, and it prints nothing
    either.  With the dry-run flag set, [run] leaves the whole world, the
    filesystem and the standard output, as it was and ends with an
    exception: at the latest the one [install_server_module] raises before
    it reaches the dry-run message of [_write_file]. *)
Theorem dry_run_writes_and_prints_nothing
    (self : CodexLocalModelIntegrator) (env : os_env) (w : world) :
  dry_run self = true ->
  exists e, run self env w = (w, Raise e).
Proof.
  intros Hd.
  destruct (run_effect self env w) as (e & Hr & Hout & Hfs).
  assert (Hf : fs (fst (run self env w)) = fs w).
  { destruct Hfs as [-> | (package_dir & ->)]; [reflexivity |].
    now apply install_server_module_dry. }
  exists e. destruct (run self env w) as [[f' out'] r].
  cbn [fst snd fs stdout] in *. subst. now destruct w.
Qed.

Lemma dry_run_witness :
  exists e,
    run (Sample.with_dry_run Sample.defaults) Sample.env
        (World Sample.installation []) =
    (World Sample.installation [], Raise e).
Proof.
  apply (dry_run_writes_and_prints_nothing (Sample.with_dry_run Sample.defaults)
           Sample.env (World Sample.installation [])).
  reflexivity.
Defined.

End Claims.

Section BackupClaims.
Import Py Tool.

Lemma inject_bootstrap_keeps_others self entrypoint package_name w p n :
  p <> entrypoint ->
  Os.node_at (fs w) p = Some n ->
  Os.node_at (fs (fst (inject_bootstrap self entrypoint package_name w))) p = Some n.
Proof.
  intros Hne Hp.
  destruct (inject_bootstrap_outcome self entrypoint package_name w)
    as [| | | | content backup Hn Hm Hd Hb]; try exact Hp.
  cbn [fst fs]. unfold patched_fs.
  rewrite node_at_insert_ne by congruence.
  destruct (Os.path_exists (fs w) backup) eqn:Hex; [exact Hp |].
  rewrite node_at_insert_ne; [exact Hp |].
  intros ->. unfold Os.path_exists in Hex. now rewrite Hp in Hex.
Qed.

Lemma inject_bootstrap_backup_step self entrypoint package_name backup content w :
  backup_of self entrypoint = Ok backup ->
  backup <> entrypoint ->
  backup_is_original (fs w) entrypoint backup content ->
  backup_is_original
    (fs (fst (inject_bootstrap self entrypoint package_name w)))
    entrypoint backup content.
Proof.
  intros Hb Hne [Hold | [Hnone Hn]].
  { left. now apply inject_bootstrap_keeps_others. }
  assert (Hr : Os.read_text_of (fs w) entrypoint = Ok (universal_newlines content))
    by (unfold Os.read_text_of; now rewrite Hn).
  destruct (contains MARKER (universal_newlines content)) eqn:Hm.
  { rewrite (inject_bootstrap_marked _ _ _ _ _ Hr Hm). right. auto. }
  destruct (dry_run self) eqn:Hd.
  { rewrite (inject_bootstrap_dry _ _ _ _ _ Hr Hm Hd). right. auto. }
  rewrite (inject_bootstrap_patches _ _ package_name _ _ _ Hn Hm Hd Hb).
  left. cbn [fst fs]. unfold patched_fs, Os.path_exists. rewrite Hnone.
  rewrite node_at_insert_ne by congruence.
  apply node_at_insert_eq. intros ->. discriminate.
Qed.

Lemma install_server_module_backup_step self package_dir backup content w :
  backup_of self (server_path_of package_dir) = Ok backup ->
  backup_is_original (fs w) (server_path_of package_dir) backup content ->
  backup_is_original
    (fs (fst (install_server_module self package_dir w)))
    (server_path_of package_dir) backup content.
Proof.
  intros Hb Hinv.
  destruct (install_server_module_effect self package_dir w)
    as (e & _ & _ & [-> | (backup' & content' & _ & Hb' & Hn & Hnone & ->)]);
    [exact Hinv |].
  rewrite Hb in Hb'. injection Hb' as <-.
  destruct Hinv as [Hold | [_ Hn']]; [rewrite Hold in Hnone; discriminate |].
  rewrite Hn in Hn'. injection Hn' as ->.
  left. apply node_at_insert_eq. intros ->. discriminate.
Qed.

Lemma reruns_invariant {A : Type} (op : M A) (P : world -> Prop) :
  (forall w, P w -> P (fst (op w))) ->
  forall k w, P w -> P (reruns op k w).
Proof.
  intros Hstep k. induction k as [|k IH]; intros w Hw; [exact Hw |].
  simpl. apply IH, Hstep, Hw.
Qed.

(** C4 (amended).  Provided the backup path differs from the target (the
    backup suffix is not empty): a file that exists at the backup path is
    left as it is by [inject_bootstrap] and by [install_server_module];
    and when nothing exists at the backup path to begin with, then after
    any number of reruns either the backup holds the content the target had
    before the first run, or no backup has been made and the target still
    holds that content.  The backup never holds an intermediate state. *)
Theorem backup_never_overwritten (self : CodexLocalModelIntegrator) :
  (forall (entrypoint backup : Path) (package_name : string),
     backup_of self entrypoint = Ok backup ->
     backup <> entrypoint ->
     (forall (w : world) (n : node),
        Os.node_at (fs w) backup = Some n ->
        Os.node_at (fs (fst (inject_bootstrap self entrypoint package_name w)))
                   backup = Some n) /\
     (forall (w : world) (content : string) (k : nat),
        Os.node_at (fs w) entrypoint = Some (File content) ->
        Os.node_at (fs w) backup = None ->
        backup_is_original
          (fs (reruns (inject_bootstrap self entrypoint package_name) k w))
          entrypoint backup content)) /\
  (forall (package_dir backup : Path),
     backup_of self (PathLib.div package_dir "local_model_server.py") = Ok backup ->
     backup <> PathLib.div package_dir "local_model_server.py" ->
     (forall (w : world) (n : node),
        Os.node_at (fs w) backup = Some n ->
        Os.node_at (fs (fst (install_server_module self package_dir w)))
                   backup = Some n) /\
     (forall (w : world) (content : string) (k : nat),
        Os.node_at (fs w) (PathLib.div package_dir "local_model_server.py") =
          Some (File content) ->
        Os.node_at (fs w) backup = None ->
        backup_is_original
          (fs (reruns (install_server_module self package_dir) k w))
          (PathLib.div package_dir "local_model_server.py") backup content)).
Proof.
  split.
  - intros entrypoint backup package_name Hb Hne. split.
    + intros w n Hn. now apply inject_bootstrap_keeps_others.
    + intros w content k Hn Hnone.
      apply (reruns_invariant (inject_bootstrap self entrypoint package_name)
               (fun w => backup_is_original (fs w) entrypoint backup content)).
      * intros w' Hw'. now apply inject_bootstrap_backup_step.
      * right. auto.
  - intros package_dir backup Hb Hne. split.
    + intros w n Hn. now apply install_server_module_keeps.
    + intros w content k Hn Hnone.
      apply (reruns_invariant (install_server_module self package_dir)
               (fun w => backup_is_original (fs w) (server_path_of package_dir)
                           backup content)).
      * intros w' Hw'. now apply install_server_module_backup_step.
      * right. auto.
Qed.

End BackupClaims.

Section LocatorClaims.
Import Py Tool.

Lemma first_existing_default_find env f texts paths :
  Forall2 (fun text p => expand_resolve env text = Ok p) texts paths ->
  first_existing_default env f texts =
  match List.find (Os.path_exists f) paths with
  | Some p => Ok p
  | None => Raise (FileNotFoundError NOT_LOCATED)
  end.
Proof.
  induction 1 as [|text p texts paths Hp _ IH]; [reflexivity |].
  simpl. rewrite Hp. destruct (Os.path_exists f p); [reflexivity | exact IH].
Qed.

(** C5 (amended).  With an explicit path, [locate_codex] looks at nothing
    else: it returns the resolved path if it exists, as a directory or as
    anything else, and otherwise raises NotFound with a message naming
    that one path.  Without an explicit path it returns the first existing
    path among the environment's directory (when set and not empty) and
    the default candidates, in that order, and raises NotFound with a
    fixed message, naming no location, when none exists. *)
Theorem locate_codex_priority
    (self : CodexLocalModelIntegrator) (env : os_env)
    (f : gmap (list string) node) :
  (forall (text : string) (root : Path),
     codex_root self = Some text ->
     expand_resolve env text = Ok root ->
     locate_codex self env f =
     if Os.path_exists f root then Ok root
     else Raise (FileNotFoundError
                   ("Provided Codex path does not exist: " +:+ PathLib.str root))) /\
  (forall (paths : list Path),
     codex_root self = None ->
     Forall2 (fun text p => expand_resolve env text = Ok p) (search_texts env) paths ->
     locate_codex self env f =
     match List.find (Os.path_exists f) paths with
     | Some p => Ok p
     | None => Raise (FileNotFoundError NOT_LOCATED)
     end).
Proof.
  split.
  - intros text root Hc Hr. unfold locate_codex. rewrite Hc, Hr.
    now destruct (Os.path_exists f root).
  - intros paths Hc Hall. unfold locate_codex. rewrite Hc.
    unfold search_texts in Hall.
    destruct (CODEX_INSTALL_DIR env) as [env_dir|];
      [| now apply first_existing_default_find].
    destruct (is_empty env_dir) eqn:He; cbn [negb];
      [now apply first_existing_default_find |].
    change ([env_dir] ++ DEFAULT_INSTALL_LOCATIONS)
      with (env_dir :: DEFAULT_INSTALL_LOCATIONS) in Hall.
    inversion Hall as [|? root ? rest Hroot Hrest]; subst.
    rewrite Hroot. cbn [List.find].
    destruct (Os.path_exists f root); [reflexivity |].
    now apply first_existing_default_find.
Qed.

End LocatorClaims.

Section InsertionClaims.
Import Py Tool.

Lemma scan_lines_passed (pre rest : list string) :
  Forall (fun line => passed_over line = true) pre ->
  forall insert_at index,
  exists insert_at',
    scan_lines insert_at index (pre ++ rest) =
    scan_lines insert_at' (index + length pre) rest.
Proof.
  induction 1 as [|line pre Hline _ IH]; intros insert_at index.
  - exists insert_at. simpl. now rewrite Nat.add_0_r.
  - unfold passed_over in Hline. simpl.
    replace (index + S (length pre)) with (S index + length pre) by lia.
    destruct (skippable (strip line)); [apply IH |].
    simpl in Hline. rewrite Hline. apply IH.
Qed.

Lemma insertion_point_after_passed (pre rest : list string) :
  Forall (fun line => passed_over line = true) pre ->
  match rest with
  | [] => True
  | line :: _ => passed_over line = false
  end ->
  insertion_point (pre ++ rest) = length pre.
Proof.
  intros Hpre Hrest. unfold insertion_point.
  destruct (scan_lines_passed pre rest Hpre 0 0) as [insert_at' ->].
  destruct rest as [|line rest].
  - simpl. now rewrite app_nil_r.
  - unfold passed_over in Hrest. apply orb_false_iff in Hrest.
    destruct Hrest as [Hs Hi]. simpl. now rewrite Hs, Hi.
Qed.

(** The rule of the scan, on a text split into the lines it passes over
    and the line it stops at. *)
Lemma inject_bootstrap_inserts_after_passed
    (self : CodexLocalModelIntegrator) (entrypoint backup : Path)
    (package_name : string) (w : world) (content : string)
    (pre rest : list string) :
  dry_run self = false ->
  backup_of self entrypoint = Ok backup ->
  Os.node_at (fs w) entrypoint = Some (File content) ->
  contains MARKER (universal_newlines content) = false ->
  splitlines (universal_newlines content) = pre ++ rest ->
  Forall (fun line => passed_over line = true) pre ->
  match rest with
  | [] => True
  | line :: _ => passed_over line = false
  end ->
  insertion_point (splitlines (universal_newlines content)) = length pre /\
  Os.node_at (fs (fst (inject_bootstrap self entrypoint package_name w)))
             entrypoint =
  Some (File (join nl (pre ++ [injection package_name; EmptyString] ++ rest))).
Proof.
  intros Hd Hb Hn Hm Hlines Hpre Hrest.
  split; [rewrite Hlines; now apply insertion_point_after_passed |].
  rewrite (inject_bootstrap_patches _ _ package_name _ _ _ Hn Hm Hd Hb).
  cbn [fst fs]. unfold patched_fs.
  rewrite node_at_insert_eq by (eapply node_at_file_nonroot; exact Hn).
  unfold patched_text. rewrite Hlines.
  rewrite (insertion_point_after_passed pre rest Hpre Hrest).
  now rewrite take_app_length, drop_app_length.
Qed.

(** A line that begins with three quote characters is passed over, as
    every line whose first character is a quote. *)
Lemma triple_quote_line_is_passed_over (quote : ascii) (line : string) :
  PySource.is_quote quote = true ->
  startswith (triple quote) (strip line) = true ->
  passed_over line = true.
Proof.
  intros Hq Hs. unfold passed_over, skippable.
  destruct (strip line) as [|c s]; [discriminate |].
  unfold triple in Hs. cbn [startswith] in Hs.
  apply andb_true_iff in Hs. destruct Hs as [Hc _].
  apply Ascii.eqb_eq in Hc. subst c.
  unfold PySource.is_quote in Hq. apply orb_true_iff in Hq.
  destruct Hq as [Hq | Hq]; apply Ascii.eqb_eq in Hq; subst quote;
    reflexivity.
Qed.

(** A blank line and a comment line are passed over. *)
Lemma blank_or_comment_is_passed_over (line : string) :
  is_empty (strip line) = true \/ startswith "#" (strip line) = true ->
  passed_over line = true.
Proof.
  unfold passed_over, skippable. intros [-> | ->]; [reflexivity |].
  now rewrite orb_true_r.
Qed.

(** C6.  The scan of [inject_bootstrap] tells a docstring from code by the
    first character of each line and by nothing else.  When the module
    docstring, after any blank and comment lines, opens on a line with
    three quote characters and does not close on that line, and its next
    line is ordinary prose (not blank, and starting neither with a hash,
    nor with a double or a single quote, nor with [import ] or [from ]),
    the scan stops at that next line: the block, followed by an empty
    line, is written between the first and the second line of the
    docstring, inside the string literal, whatever comes after, imports
    and function definitions included. *)
Theorem inject_bootstrap_splits_open_docstring
    (self : CodexLocalModelIntegrator) (entrypoint backup : Path)
    (package_name : string) (w : world) (content : string)
    (quote : ascii) (lead : list string) (opening prose : string)
    (rest : list string) :
  dry_run self = false ->
  backup_of self entrypoint = Ok backup ->
  Os.node_at (fs w) entrypoint = Some (File content) ->
  contains MARKER (universal_newlines content) = false ->
  splitlines (universal_newlines content) = lead ++ opening :: prose :: rest ->
  Forall (fun line => is_empty (strip line) = true \/
                      startswith "#" (strip line) = true) lead ->
  PySource.is_quote quote = true ->
  startswith (triple quote) (strip opening) = true ->
  contains (triple quote) (slice_from 3 (strip opening)) = false ->
  is_empty (strip prose) = false ->
  startswith "#" (strip prose) = false ->
  startswith dq (strip prose) = false ->
  startswith "'" (strip prose) = false ->
  startswith "import " (strip prose) = false ->
  startswith "from " (strip prose) = false ->
  insertion_point (splitlines (universal_newlines content)) = S (length lead) /\
  snd (inject_bootstrap self entrypoint package_name w) = Ok tt /\
  Os.node_at (fs (fst (inject_bootstrap self entrypoint package_name w)))
             entrypoint =
  Some (File (join nl (lead ++ opening :: injection package_name ::
                       EmptyString :: prose :: rest))).
Proof.
  intros Hd Hb Hn Hm Hlines Hlead Hq Hopen _ He Hh Hdq Hsq Hi Hf.
  destruct (inject_bootstrap_inserts_after_passed self entrypoint backup
              package_name w content (lead ++ [opening]) (prose :: rest))
    as [Hpoint Hnode]; try assumption.
  - now rewrite <- app_assoc.
  - apply Forall_app. split.
    + eapply Forall_impl; [exact Hlead |].
      intros line Hline. now apply blank_or_comment_is_passed_over.
    + constructor; [| constructor].
      now apply triple_quote_line_is_passed_over with quote.
  - unfold passed_over, skippable, import_style.
    now rewrite He, Hh, Hdq, Hsq, Hi, Hf.
  - split.
    { rewrite Hpoint, length_app. simpl. lia. }
    split.
    { now rewrite (inject_bootstrap_patches _ _ package_name _ _ _ Hn Hm Hd Hb). }
    rewrite Hnode. now rewrite <- app_assoc.
Qed.

(** C6 on the module of the specification's example, its docstring spread
    over three lines: the function definition is line 6, the block is
    inserted at line 1 and the file written is not the one with the block
    before the definition. *)
Example long_docstring_takes_the_block :
  Sample.cli_long_docstring_lines !! 6%nat = Some "def main():" /\
  insertion_point (splitlines Sample.cli_long_docstring_text) = 1%nat /\
  Os.node_at
    (fs (fst (inject_bootstrap Sample.defaults Sample.entrypoint "codex"
                (World (Sample.installation_with Sample.cli_long_docstring_text) []))))
    Sample.entrypoint <>
  Some (File (join nl (take 6 Sample.cli_long_docstring_lines ++
                       [injection "codex"; EmptyString] ++
                       drop 6 Sample.cli_long_docstring_lines))).
Proof.
  split; [reflexivity |]. split; [vm_compute; reflexivity |].
  vm_compute. discriminate.
Qed.

(** The module of the specification's example with its docstring on one
    line: the block goes after the imports, before the definition. *)
Example one_line_docstring_on_sample :
  insertion_point (splitlines (universal_newlines Sample.cli_text)) = 4%nat /\
  Os.node_at
    (fs (fst (inject_bootstrap Sample.defaults Sample.entrypoint "codex"
                (World Sample.installation []))))
    Sample.entrypoint =
  Some (File (join nl (take 4 Sample.cli_lines ++
                       [injection "codex"; EmptyString] ++
                       drop 4 Sample.cli_lines))).
Proof.
  apply (inject_bootstrap_inserts_after_passed Sample.defaults Sample.entrypoint
           (Sample.package_dir ++ ["cli.py.bak"]) "codex"
           (World Sample.installation []) Sample.cli_text
           (take 4 Sample.cli_lines) (drop 4 Sample.cli_lines)).
  - reflexivity.
  - vm_compute. reflexivity.
  - vm_compute. reflexivity.
  - vm_compute. reflexivity.
  - vm_compute. reflexivity.
  - repeat constructor.
  - vm_compute. reflexivity.
Qed.

(** C4, counterexample.  With an empty backup suffix the backup path is
    the entrypoint itself: after one run the file at the backup path no
    longer holds what the entrypoint held before the run. *)
Lemma empty_suffix_backup_is_overwritten :
  backup_of (Sample.with_backup_suffix EmptyString Sample.defaults)
            Sample.entrypoint = Ok Sample.entrypoint /\
  Os.node_at (Sample.installation) Sample.entrypoint = Some (File Sample.cli_text) /\
  Os.node_at
    (fs (reruns (inject_bootstrap
                   (Sample.with_backup_suffix EmptyString Sample.defaults)
                   Sample.entrypoint "codex") 1
                (World Sample.installation [])))
    Sample.entrypoint <> Some (File Sample.cli_text).
Proof.
  split; [vm_compute; reflexivity |]. split; [vm_compute; reflexivity |].
  vm_compute. discriminate.
Qed.

(** C5, counterexample.  An explicit path that does not exist, while a
    default candidate does: the specification's wording returns the
    default candidate, [locate_codex] raises. *)
Lemma missing_explicit_path_is_fatal :
  Spec.locate_as_specified (Sample.with_codex_root "/srv/codex" Sample.defaults)
    Sample.env Sample.installation = Ok ["opt"; "codex"] /\
  locate_codex (Sample.with_codex_root "/srv/codex" Sample.defaults)
    Sample.env Sample.installation =
  Raise (FileNotFoundError "Provided Codex path does not exist: /srv/codex").
Proof. split; vm_compute; reflexivity. Qed.

End InsertionClaims.

Section Witnesses.
Import Py Tool.

Lemma backup_never_overwritten_witness :
  backup_is_original
    (fs (reruns (inject_bootstrap Sample.defaults Sample.entrypoint "codex") 3
                (World Sample.installation [])))
    Sample.entrypoint (Sample.package_dir ++ ["cli.py.bak"]) Sample.cli_text /\
  backup_is_original
    (fs (reruns (install_server_module Sample.defaults Sample.package_dir) 3
                (World Sample.installation_with_old_server [])))
    (PathLib.div Sample.package_dir "local_model_server.py")
    (Sample.package_dir ++ ["local_model_server.py.bak"]) "# old bridge".
Proof.
  split.
  - apply (proj1 (backup_never_overwritten Sample.defaults)
             Sample.entrypoint (Sample.package_dir ++ ["cli.py.bak"]) "codex");
      [vm_compute; reflexivity | discriminate | vm_compute; reflexivity
      | vm_compute; reflexivity].
  - apply (proj2 (backup_never_overwritten Sample.defaults)
             Sample.package_dir (Sample.package_dir ++ ["local_model_server.py.bak"]));
      [vm_compute; reflexivity | discriminate | vm_compute; reflexivity
      | vm_compute; reflexivity].
Defined.

Lemma locate_codex_priority_witness :
  locate_codex (Sample.with_codex_root "/srv/codex" Sample.defaults) Sample.env
    Sample.two_installations = Ok ["srv"; "codex"] /\
  locate_codex Sample.defaults Sample.env Sample.two_installations =
    Ok ["opt"; "codex"].
Proof.
  split.
  - rewrite (proj1 (locate_codex_priority
                      (Sample.with_codex_root "/srv/codex" Sample.defaults)
                      Sample.env Sample.two_installations)
               "/srv/codex" ["srv"; "codex"] eq_refl eq_refl).
    vm_compute. reflexivity.
  - rewrite (proj2 (locate_codex_priority Sample.defaults Sample.env
                      Sample.two_installations) Sample.default_paths eq_refl).
    + vm_compute. reflexivity.
    + repeat constructor.
Defined.

End Witnesses.

(** ** The sample installation, evaluated *)

Section Evaluated.
Import Py Tool.

(** An existing bridge module is backed up, then the rendering fails: the
    module keeps its old content. *)
Example install_on_sample :
  install_server_module Sample.defaults Sample.package_dir
    (World Sample.installation_with_old_server []) =
  (World (<[Sample.package_dir ++ ["local_model_server.py.bak"] := File "# old bridge"]>
            Sample.installation_with_old_server) [],
   Raise (KeyError "role")).
Proof. vm_compute. reflexivity. Qed.

(** A dry run on the sample installation. *)
Example dry_run_on_sample :
  run (Sample.with_dry_run Sample.defaults) Sample.env
      (World Sample.installation []) =
  (World Sample.installation [], Raise (KeyError "role")).
Proof. vm_compute. reflexivity. Qed.

End Evaluated.

(** * Further properties of the integrator *)

Section ResolverFacts.
Import Py Tool.

Lemma find_app_first {A : Type} (g : A -> bool) (l1 l2 : list A) :
  List.find g (l1 ++ l2) =
  match List.find g l1 with
  | Some x => Some x
  | None => List.find g l2
  end.
Proof.
  induction l1 as [|x l1 IH]; [reflexivity |].
  simpl. now destruct (g x).
Qed.

Lemma parent_div (p : Path) (name : string) :
  PathLib.parent (PathLib.div p name) = p.
Proof. unfold PathLib.parent, PathLib.div. apply removelast_last. Qed.

Lemma name_div (p : Path) (name : string) :
  PathLib.name (PathLib.div p name) = name.
Proof. unfold PathLib.name, PathLib.div. apply last_last. Qed.

Lemma children_parent (f : gmap (list string) node) (dir k : Path) :
  In k (Os.children f dir) -> k <> [] /\ PathLib.parent k = dir.
Proof.
  unfold Os.children. intros H. apply filter_In in H. destruct H as [_ H].
  apply andb_true_iff in H. destruct H as [H1 H2].
  apply negb_true_iff, bool_decide_eq_false in H1.
  apply bool_decide_eq_true in H2. auto.
Qed.

Lemma candidates_fixed_or_child f root candidates failure p :
  _candidate_package_dirs f root = (candidates, failure) ->
  In p candidates ->
  p = PathLib.div root "codex" \/
  p = PathLib.div (PathLib.div root "src") "codex" \/
  p = PathLib.div (PathLib.div root "lib") "codex" \/
  (p <> [] /\ PathLib.parent p = root /\ Os.is_dir f p = true /\
   startswith "codex" (lower (PathLib.name p)) = true).
Proof.
  unfold _candidate_package_dirs. intros Hc Hin.
  assert (Hfixed : forall q,
    In q ((if Os.path_exists f (PathLib.div root "codex")
           then [PathLib.div root "codex"] else []) ++
          (if Os.path_exists f (PathLib.div (PathLib.div root "src") "codex")
           then [PathLib.div (PathLib.div root "src") "codex"] else []) ++
          (if Os.path_exists f (PathLib.div (PathLib.div root "lib") "codex")
           then [PathLib.div (PathLib.div root "lib") "codex"] else [])) ->
    q = PathLib.div root "codex" \/
    q = PathLib.div (PathLib.div root "src") "codex" \/
    q = PathLib.div (PathLib.div root "lib") "codex").
  { intros q Hq. repeat (apply in_app_or in Hq; destruct Hq as [Hq | Hq]);
      repeat match type of Hq with
             | In _ (if ?b then _ else _) => destruct b
             end;
      simpl in Hq; intuition. }
  destruct (Os.iterdir f root) as [kids|e] eqn:Hit.
  - injection Hc as <- <-.
    apply in_app_or in Hin. destruct Hin as [Hin | Hin].
    + destruct (Hfixed p Hin) as [H | [H | H]]; auto.
    + right. right. right.
      apply filter_In in Hin. destruct Hin as [Hk Hp].
      apply andb_true_iff in Hp. destruct Hp as [Hp _].
      apply andb_true_iff in Hp. destruct Hp as [Hd Hn].
      unfold Os.iterdir in Hit.
      destruct (Os.node_at f root) as [[?|]|]; try discriminate.
      injection Hit as <-.
      destruct (children_parent _ _ _ Hk). auto.
  - injection Hc as <- <-.
    destruct (Hfixed p Hin) as [H | [H | H]]; auto.
Qed.

(** X1.  A package directory that [resolve_package_dir] returns holds an
    [__init__.py], and it is [root/codex], [root/src/codex],
    [root/lib/codex] or a directory directly under the root whose
    lower-cased name starts with codex. *)
Theorem resolve_package_dir_sound
    (f : gmap (list string) node) (root p : Path) :
  resolve_package_dir f root = Ok p ->
  Os.path_exists f (PathLib.div p "__init__.py") = true /\
  (p = PathLib.div root "codex" \/
   p = PathLib.div (PathLib.div root "src") "codex" \/
   p = PathLib.div (PathLib.div root "lib") "codex" \/
   (p <> [] /\ PathLib.parent p = root /\ Os.is_dir f p = true /\
    startswith "codex" (lower (PathLib.name p)) = true)).
Proof.
  unfold resolve_package_dir.
  destruct (_candidate_package_dirs f root) as [candidates failure] eqn:Hc.
  destruct (List.find _ candidates) as [c|] eqn:Hf.
  - intros H. injection H as <-.
    apply find_some in Hf. destruct Hf as [Hin Hinit].
    split; [exact Hinit |].
    eapply candidates_fixed_or_child; eauto.
  - destruct failure; discriminate.
Qed.


(** X2.  The three fixed locations come first, in the order [root/codex],
    [root/src/codex], [root/lib/codex]: the first of them that exists and
    holds an [__init__.py] is returned, whatever else lies under the root
    and even when the root cannot be listed. *)
Theorem resolve_package_dir_fixed_first
    (f : gmap (list string) node) (root p : Path) :
  List.find (fun c => Os.path_exists f c &&
                      Os.path_exists f (PathLib.div c "__init__.py"))
            [PathLib.div root "codex";
             PathLib.div (PathLib.div root "src") "codex";
             PathLib.div (PathLib.div root "lib") "codex"] = Some p ->
  resolve_package_dir f root = Ok p.
Proof.
  unfold resolve_package_dir, _candidate_package_dirs.
  set (direct := PathLib.div root "codex").
  set (src := PathLib.div (PathLib.div root "src") "codex").
  set (lib := PathLib.div (PathLib.div root "lib") "codex").
  set (init := fun c : Path => Os.path_exists f (PathLib.div c "__init__.py")).
  intros H. simpl in H.
  assert (Hfixed :
    List.find init
      ((if Os.path_exists f direct then [direct] else []) ++
       (if Os.path_exists f src then [src] else []) ++
       (if Os.path_exists f lib then [lib] else [])) = Some p).
  { fold (init direct) (init src) (init lib) in H.
    destruct (Os.path_exists f direct), (init direct) eqn:Hd,
             (Os.path_exists f src), (init src) eqn:Hs,
             (Os.path_exists f lib), (init lib) eqn:Hl;
      simpl in H |- *; rewrite ?Hd, ?Hs, ?Hl; simpl; congruence. }
  destruct (Os.iterdir f root) as [kids|e].
  - rewrite find_app_first, Hfixed. reflexivity.
  - rewrite Hfixed. reflexivity.
Qed.

(** X3.  When no directory holds an [__init__.py], [resolve_package_dir]
    raises: the program's own NotFound error naming the root when the root
    is a directory, but the listing's [NotADirectoryError] when the root is
    a regular file, and its [FileNotFoundError] when the root is missing. *)
Theorem resolve_package_dir_without_package
    (f : gmap (list string) node) (root : Path) :
  (forall p, Os.path_exists f (PathLib.div p "__init__.py") = false) ->
  resolve_package_dir f root =
  match Os.node_at f root with
  | Some Dir =>
      Raise (FileNotFoundError
               ("Could not find a Codex python package under " +:+
                PathLib.str root +:+
                ". Expected to see a directory containing an __init__.py file."))
  | Some (File _) => Raise (NotADirectoryError root)
  | None => Raise (NoSuchFile root)
  end.
Proof.
  intros Hno. unfold resolve_package_dir.
  destruct (_candidate_package_dirs f root) as [candidates failure] eqn:Hc.
  assert (Hf : List.find
                 (fun c => Os.path_exists f (PathLib.div c "__init__.py"))
                 candidates = None).
  { clear Hc. induction candidates as [|c cs IH]; [reflexivity |].
    simpl. now rewrite Hno. }
  rewrite Hf. unfold _candidate_package_dirs, Os.iterdir in Hc.
  destruct (Os.node_at f root) as [[content|]|]; injection Hc as <- <-;
    reflexivity.
Qed.

End ResolverFacts.

Section EntrypointFacts.
Import Py Tool.

Lemma first_with_main_guard_sound f package_dir files p :
  first_with_main_guard f package_dir files = Ok p ->
  In p files /\
  exists text, Os.read_text_of f p = Ok text /\ contains MAIN_GUARD text = true.
Proof.
  induction files as [|q files IH]; [discriminate |].
  simpl. destruct (Os.read_text_of f q) as [text|e] eqn:Hr; [| discriminate].
  destruct (contains MAIN_GUARD text) eqn:Hg.
  - intros H. injection H as <-. split; [now left |]. now exists text.
  - intros H. destruct (IH H) as [Hin Ht]. split; [now right | exact Ht].
Qed.

(** X4.  An entrypoint that [resolve_entrypoint] returns lies directly in
    the package directory and exists; it is [__main__.py], [cli.py],
    [main.py] or [app.py], or else a readable [*.py] file whose text
    contains the main-guard idiom, found only when none of those four
    exists. *)
Theorem resolve_entrypoint_sound
    (f : gmap (list string) node) (package_dir p : Path) :
  resolve_entrypoint f package_dir = Ok p ->
  PathLib.parent p = package_dir /\
  Os.path_exists f p = true /\
  (In (PathLib.name p) ["__main__.py"; "cli.py"; "main.py"; "app.py"] \/
   (Forall (fun name => Os.path_exists f (PathLib.div package_dir name) = false)
           ["__main__.py"; "cli.py"; "main.py"; "app.py"] /\
    endswith ".py" (PathLib.name p) = true /\
    exists text, Os.read_text_of f p = Ok text /\
                 contains MAIN_GUARD text = true)).
Proof.
  unfold resolve_entrypoint.
  destruct (Os.path_exists f (PathLib.div package_dir "__main__.py")) eqn:H0.
  { intros H. injection H as <-. rewrite parent_div, name_div.
    split; [reflexivity |]. split; [assumption |]. left. simpl. tauto. }
  simpl.
  destruct (Os.path_exists f (PathLib.div package_dir "cli.py")) eqn:H1.
  { intros H. injection H as <-. rewrite parent_div, name_div.
    split; [reflexivity |]. split; [assumption |]. left. simpl. tauto. }
  destruct (Os.path_exists f (PathLib.div package_dir "main.py")) eqn:H2.
  { intros H. injection H as <-. rewrite parent_div, name_div.
    split; [reflexivity |]. split; [assumption |]. left. simpl. tauto. }
  destruct (Os.path_exists f (PathLib.div package_dir "app.py")) eqn:H3.
  { intros H. injection H as <-. rewrite parent_div, name_div.
    split; [reflexivity |]. split; [assumption |]. left. simpl. tauto. }
  intros H. apply first_with_main_guard_sound in H.
  destruct H as [Hin (text & Hr & Hg)].
  unfold Os.glob_py in Hin.
  destruct (Os.is_dir f package_dir); [| destruct Hin].
  apply filter_In in Hin. destruct Hin as [Hk Hpy].
  destruct (children_parent _ _ _ Hk) as [_ Hparent].
  split; [exact Hparent |]. split.
  - unfold Os.path_exists. unfold Os.read_text_of in Hr.
    destruct (Os.node_at f p) as [[?|]|]; try discriminate. reflexivity.
  - right. split; [repeat constructor; assumption |].
    split; [exact Hpy |]. now exists text.
Qed.

(** X5.  The conventional names come first: the first of [__main__.py],
    [cli.py], [main.py], [app.py] that exists in the package directory is
    the entrypoint, and no file is read to decide it. *)
Theorem resolve_entrypoint_conventional_first
    (f : gmap (list string) node) (package_dir p : Path) :
  List.find (Os.path_exists f)
            (PathLib.div package_dir <$>
               ["__main__.py"; "cli.py"; "main.py"; "app.py"]) = Some p ->
  resolve_entrypoint f package_dir = Ok p.
Proof.
  unfold resolve_entrypoint. simpl.
  destruct (Os.path_exists f (PathLib.div package_dir "__main__.py"));
    [intros H; now injection H as <- |].
  now intros ->.
Qed.

Lemma first_with_main_guard_none f package_dir files :
  Forall (fun q => exists text, Os.read_text_of f q = Ok text /\
                                contains MAIN_GUARD text = false) files ->
  first_with_main_guard f package_dir files =
  Raise (FileNotFoundError
           ("Unable to locate Codex CLI entrypoint under " +:+
            PathLib.str package_dir +:+
            ". Tried __main__.py, cli.py, main.py and files with a __main__ guard.")).
Proof.
  induction 1 as [|q files (text & Hr & Hg) _ IH]; [reflexivity |].
  simpl. now rewrite Hr, Hg.
Qed.

(** X6.  When none of the four conventional files exists and every [*.py]
    entry of the package directory is a readable file without the
    main-guard idiom, [resolve_entrypoint] raises the program's NotFound
    error naming the package directory. *)
Theorem resolve_entrypoint_not_found
    (f : gmap (list string) node) (package_dir : Path) :
  Forall (fun name => Os.path_exists f (PathLib.div package_dir name) = false)
         ["__main__.py"; "cli.py"; "main.py"; "app.py"] ->
  Forall (fun q => exists text, Os.read_text_of f q = Ok text /\
                                contains MAIN_GUARD text = false)
         (Os.glob_py f package_dir) ->
  resolve_entrypoint f package_dir =
  Raise (FileNotFoundError
           ("Unable to locate Codex CLI entrypoint under " +:+
            PathLib.str package_dir +:+
            ". Tried __main__.py, cli.py, main.py and files with a __main__ guard.")).
Proof.
  intros Hnames Hfiles. unfold resolve_entrypoint.
  inversion Hnames as [|? ? H0 Hn1]; subst.
  inversion Hn1 as [|? ? H1 Hn2]; subst.
  inversion Hn2 as [|? ? H2 Hn3]; subst.
  inversion Hn3 as [|? ? H3 _]; subst.
  rewrite H0. simpl. rewrite H1, H2, H3.
  now apply first_with_main_guard_none.
Qed.

(** X7.  A directory whose name ends in [.py] stops the fallback scan:
    when the entries listed before it are readable files without the
    idiom, [resolve_entrypoint] raises [IsADirectoryError] for it, also if
    a later file holds the idiom. *)
Theorem resolve_entrypoint_directory_named_py
    (f : gmap (list string) node) (package_dir d : Path)
    (before after : list Path) :
  Forall (fun name => Os.path_exists f (PathLib.div package_dir name) = false)
         ["__main__.py"; "cli.py"; "main.py"; "app.py"] ->
  Os.glob_py f package_dir = before ++ d :: after ->
  Forall (fun q => exists text, Os.read_text_of f q = Ok text /\
                                contains MAIN_GUARD text = false) before ->
  Os.node_at f d = Some Dir ->
  resolve_entrypoint f package_dir = Raise (IsADirectoryError d).
Proof.
  intros Hnames Hglob Hbefore Hd. unfold resolve_entrypoint.
  inversion Hnames as [|? ? H0 Hn1]; subst.
  inversion Hn1 as [|? ? H1 Hn2]; subst.
  inversion Hn2 as [|? ? H2 Hn3]; subst.
  inversion Hn3 as [|? ? H3 _]; subst.
  rewrite H0. simpl. rewrite H1, H2, H3, Hglob. clear Hglob.
  induction Hbefore as [|q before (text & Hr & Hg) _ IH].
  - simpl. unfold Os.read_text_of. now rewrite Hd.
  - simpl. now rewrite Hr, Hg.
Qed.

End EntrypointFacts.

Section BackupPathFacts.
Import Py Tool.

Lemma last_dot_py (stem : string) :
  PathLib.last_dot (stem +:+ ".py") = Some (stem, ".py").
Proof.
  induction stem as [|a stem IH]; [reflexivity |].
  rewrite app_cons_str. simpl. now rewrite IH.
Qed.

(** [with_suffix] on a file named [stem.py]: the new suffix goes in the
    place of [.py]. *)
Lemma with_suffix_py (path : Path) (stem suf : string) :
  PathLib.name path = stem +:+ ".py" ->
  is_empty stem = false ->
  PathLib.suffix path = ".py" /\
  PathLib.with_suffix path (".py" +:+ suf) =
  if contains "/" suf
  then Raise (ValueError ("Invalid suffix " +:+ repr (".py" +:+ suf)))
  else Ok (PathLib.parent path ++ [PathLib.name path +:+ suf]).
Proof.
  intros Hname Hstem.
  unfold PathLib.suffix, PathLib.with_suffix,
    PathLib.name_suffix, PathLib.name_stem.
  rewrite Hname, last_dot_py, Hstem.
  change (negb false && (1 <? String.length ".py")%nat) with true.
  cbv beta iota. split; [reflexivity |].
  change (contains "/" (".py" +:+ suf)) with (contains "/" suf).
  destruct (contains "/" suf); [reflexivity |].
  change (startswith "." (".py" +:+ suf)) with true.
  change (is_empty (".py" +:+ suf)) with false.
  change (String.eqb (".py" +:+ suf) ".") with false.
  cbn [negb andb orb].
  destruct stem as [|c stem]; [discriminate |].
  change (is_empty (String c stem +:+ ".py")) with false. cbv iota.
  now rewrite app_assoc_str.
Qed.

(** X8.  For a file whose name ends in [.py] after a non-empty stem (every
    path the integrator backs up but a file named just [.py]), the backup
    path is the same directory with the backup suffix appended to the file
    name; a backup suffix that contains a slash is refused with
    [ValueError], whose message shows the whole new suffix the way [repr]
    writes it (between double quotes when the suffix holds a single quote
    and no double quote, with control characters and backslashes
    escaped). *)
Theorem backup_of_py_file
    (self : CodexLocalModelIntegrator) (path : Path) (stem : string) :
  PathLib.name path = stem +:+ ".py" ->
  is_empty stem = false ->
  backup_of self path =
  if contains "/" (backup_suffix self)
  then Raise (ValueError ("Invalid suffix " +:+
                          repr (".py" +:+ backup_suffix self)))
  else Ok (PathLib.parent path ++ [PathLib.name path +:+ backup_suffix self]).
Proof.
  intros Hname Hstem. unfold backup_of.
  destruct (with_suffix_py path stem (backup_suffix self) Hname Hstem)
    as [-> Hw].
  exact Hw.
Qed.

End BackupPathFacts.

Section InjectionTextFacts.
Import Py Textwrap Tool.

(** The string holds no line feed. *)
Lemma split_aux_no_lf (s t cur : string) :
  contains nl s = false ->
  split_aux LF cur (s +:+ t) = split_aux LF (cur +:+ s) t.
Proof.
  revert cur. induction s as [|a s IH]; intros cur H.
  - now rewrite app_nil_l_str, app_nil_r_str.
  - rewrite contains_unfold in H. apply orb_false_iff in H.
    destruct H as [Ha Hs]. rewrite app_cons_str. simpl.
    simpl in Ha.
    destruct (Ascii.eqb a LF) eqn:E.
    + apply Ascii.eqb_eq in E. subst a. discriminate.
    + rewrite IH by exact Hs. now rewrite app_assoc_str.
Qed.

Lemma rstrip_by_kept (f : ascii -> bool) (s : string) :
  last_kept f s = true -> rstrip_by f s = s.
Proof.
  induction s as [|a s IH]; [discriminate |].
  intros H. simpl. destruct s as [|b s].
  - simpl in H. apply negb_true_iff in H. now rewrite H.
  - rewrite IH by exact H. now rewrite andb_false_r.
Qed.

Lemma last_kept_app (f : ascii -> bool) (a b : string) :
  is_empty b = false -> last_kept f (a +:+ b) = last_kept f b.
Proof.
  intros Hb. induction a as [|x a IH]; [reflexivity |].
  rewrite app_cons_str. simpl. rewrite IH.
  destruct (a +:+ b) eqn:E; [| reflexivity].
  destruct a; [| discriminate]. rewrite app_nil_l_str in E. subst b. discriminate.
Qed.


Lemma contains_char_app (c : ascii) (a b : string) :
  contains (char c) (a +:+ b) = contains (char c) a || contains (char c) b.
Proof.
  induction a as [|x a IH].
  - rewrite app_nil_l_str. simpl. destruct b; reflexivity.
  - rewrite app_cons_str, !contains_unfold, IH. simpl.
    destruct (Ascii.eqb c x); [reflexivity |]. reflexivity.
Qed.

Lemma split_join_lf_free (lines : list string) :
  lines <> [] ->
  Forall (fun l => contains nl l = false) lines ->
  split LF (join nl lines) = lines.
Proof.
  intros Hne Hall. induction Hall as [|x rest Hx Hrest IH]; [congruence |].
  destruct rest as [|y rest].
  - simpl. unfold split. rewrite <- (app_nil_r_str x) at 1.
    rewrite split_aux_no_lf by exact Hx. reflexivity.
  - change (join nl (x :: y :: rest)) with (x +:+ String LF (join nl (y :: rest))).
    unfold split. rewrite split_aux_app.
    fold (split LF (join nl (y :: rest))). rewrite IH by discriminate.
    rewrite <- (app_nil_r_str x) at 1.
    rewrite split_aux_no_lf by exact Hx. reflexivity.
Qed.

Lemma rstrip_by_one (f : ascii -> bool) (s : string) (c : ascii) :
  last_kept f s = true -> f c = true ->
  rstrip_by f (s +:+ char c) = s.
Proof.
  intros Hs Hc. induction s as [|a s IH]; [discriminate |].
  rewrite app_cons_str. simpl. destruct s as [|b s].
  - simpl in Hs. apply negb_true_iff in Hs.
    rewrite app_nil_l_str. simpl. rewrite Hc. simpl. now rewrite Hs.
  - rewrite IH by exact Hs. now rewrite andb_false_r.
Qed.

(** X9.  For a package name without a line feed, the injected block is
    exactly these seven lines: the start marker, the guarded relative
    import with its absolute fallback qualified by the package name, the
    call, and the end marker, with the common indentation removed and no
    blank line around them. *)
Theorem injection_text (package_name : string) :
  contains nl package_name = false ->
  injection package_name =
  join nl [
    "# >>> CODEx local model integration (auto-generated)";
    "try:";
    "    from .local_model_server import ensure_local_model_server  # type: ignore";
    "except Exception:  # pragma: no cover - fallback for script entrypoints";
    "    from " +:+ package_name +:+
      ".local_model_server import ensure_local_model_server  # type: ignore";
    "ensure_local_model_server()";
    "# <<< CODEx local model integration (auto-generated)"
  ].
Proof.
  intros Hpkg.
  set (body := [
    "# >>> CODEx local model integration (auto-generated)";
    "try:";
    "    from .local_model_server import ensure_local_model_server  # type: ignore";
    "except Exception:  # pragma: no cover - fallback for script entrypoints";
    "    from " +:+ package_name +:+
      ".local_model_server import ensure_local_model_server  # type: ignore";
    "ensure_local_model_server()"]).
  set (last := "# <<< CODEx local model integration (auto-generated)").
  change (join nl (_ :: _)) with (join nl (body ++ [last])).
  assert (Hd : dedent (injection_source package_name) =
               String LF (join nl (body ++ [last]) +:+ nl)).
  { transitivity (join nl ([EmptyString] ++ (body ++ [last]) ++ [EmptyString])).
    - unfold dedent, injection_source.
      rewrite split_join_lf_free.
      + vm_compute. reflexivity.
      + discriminate.
      + repeat constructor.
        rewrite !(contains_char_app LF). fold nl. rewrite Hpkg. reflexivity.
    - rewrite join_app by discriminate.
      rewrite (join_app nl (body ++ [last])) by discriminate.
      change (join nl [EmptyString]) with EmptyString.
      now rewrite app_nil_l_str, app_nil_r_str. }
  unfold injection, strip_char, strip_by. rewrite Hd.
  change (lstrip_by (Ascii.eqb LF) (String LF (join nl (body ++ [last]) +:+ nl)))
    with (join nl (body ++ [last]) +:+ nl).
  apply rstrip_by_one; [| reflexivity].
  rewrite join_app by discriminate.
  rewrite last_kept_app by reflexivity.
  rewrite last_kept_app by reflexivity.
  reflexivity.
Qed.

End InjectionTextFacts.

Section InjectEffectFacts.
Import Py Tool.

(** X10.  [inject_bootstrap] touches at most two paths: whatever the
    outcome, every path other than the entrypoint and its backup path has
    after the call the node, or the absence of a node, it had before. *)
Theorem inject_bootstrap_touches_two_paths
    (self : CodexLocalModelIntegrator) (entrypoint : Path)
    (package_name : string) (w : world) (p : Path) :
  p <> entrypoint ->
  backup_of self entrypoint <> Ok p ->
  Os.node_at (fs (fst (inject_bootstrap self entrypoint package_name w))) p =
  Os.node_at (fs w) p.
Proof.
  intros Hne Hnb.
  destruct (inject_bootstrap_outcome self entrypoint package_name w)
    as [| | | | content backup Hn Hm Hd Hb]; try reflexivity.
  cbn [fst fs]. unfold patched_fs.
  rewrite node_at_insert_ne by congruence.
  destruct (Os.path_exists (fs w) backup); [reflexivity |].
  apply node_at_insert_ne. congruence.
Qed.

(** X12.  The first patch: when the text lacks the marker, the run is not
    dry and nothing exists yet at the backup path, the call succeeds and
    leaves the bytes the entrypoint held, carriage returns included, at the
    backup path, while the entrypoint holds the patched text, built from
    the text as read (line ends universal); nothing is printed. *)
Theorem inject_bootstrap_first_patch
    (self : CodexLocalModelIntegrator) (entrypoint backup : Path)
    (package_name : string) (w : world) (content : string) :
  dry_run self = false ->
  backup_of self entrypoint = Ok backup ->
  Os.node_at (fs w) entrypoint = Some (File content) ->
  Os.node_at (fs w) backup = None ->
  contains MARKER (universal_newlines content) = false ->
  inject_bootstrap self entrypoint package_name w =
  (World (<[entrypoint :=
              File (patched_text (universal_newlines content) package_name)]>
            (<[backup := File content]> (fs w)))
         (stdout w),
   Ok tt).
Proof.
  intros Hd Hb Hn Hnone Hm.
  rewrite (inject_bootstrap_patches _ _ package_name _ _ _ Hn Hm Hd Hb).
  unfold patched_fs, Os.path_exists. now rewrite Hnone.
Qed.

End InjectEffectFacts.

Section ManifestFacts.
Import Py Tool.

Lemma below_app (root rel : Path) : PathLib.below (root ++ rel) root = Some rel.
Proof.
  induction root as [|r root IH]; [now destruct rel |].
  simpl. now rewrite String.eqb_refl.
Qed.

Lemma below_inv (p root rel : Path) :
  PathLib.below p root = Some rel -> p = root ++ rel.
Proof.
  revert p. induction root as [|r root IH]; intros p H.
  - destruct p; simpl in H; injection H as <-; reflexivity.
  - destruct p as [|c p]; simpl in H; [discriminate |].
    destruct (String.eqb r c) eqn:Hrc; [| discriminate].
    apply String.eqb_eq in Hrc. subst c. simpl. f_equal. now apply IH.
Qed.

Lemma relative_to_app (root rel : Path) :
  PathLib.relative_to (root ++ rel) root = Ok rel.
Proof. unfold PathLib.relative_to. now rewrite below_app. Qed.

Lemma relative_to_inv (p root rel : Path) :
  PathLib.relative_to p root = Ok rel -> p = root ++ rel.
Proof.
  unfold PathLib.relative_to. intros H.
  destruct (PathLib.below p root) as [rest|] eqn:Hb; [| discriminate].
  injection H as <-. now apply below_inv.
Qed.

Lemma mkdir_from_present (done todo : Path) (f : gmap (list string) node) :
  (forall k, 1 <= k <= length todo -> f !! (done ++ take k todo) = Some Dir) ->
  Os.mkdir_from done todo f = Ok f.
Proof.
  revert done. induction todo as [|c todo IH]; intros done H; [reflexivity |].
  pose proof (H 1 ltac:(simpl; lia)) as H1.
  change (take 1 (c :: todo)) with (c :: take 0 todo) in H1.
  rewrite take_0 in H1.
  simpl. rewrite H1. apply IH.
  intros k Hk. rewrite <- app_assoc. apply (H (S k)). simpl. lia.
Qed.

(** After a successful creation every ancestor is a directory, and the
    paths that are not among them are as before. *)
Lemma mkdir_from_result (done todo : Path) (f f' : gmap (list string) node) :
  Os.mkdir_from done todo f = Ok f' ->
  (forall k, 1 <= k <= length todo -> f' !! (done ++ take k todo) = Some Dir) /\
  (forall q, (forall k, 1 <= k <= length todo -> q <> done ++ take k todo) ->
             f' !! q = f !! q).
Proof.
  revert done f. induction todo as [|c todo IH]; intros done f H.
  - injection H as <-. split; [simpl; intros; lia | reflexivity].
  - simpl in H.
    assert (Hstep : forall g, Os.mkdir_from (done ++ [c]) todo g = Ok f' ->
              g !! (done ++ [c]) = Some Dir ->
              (forall k, 1 <= k <= S (length todo) ->
                 f' !! (done ++ take k (c :: todo)) = Some Dir) /\
              (forall q, (forall k, 1 <= k <= S (length todo) ->
                            q <> done ++ take k (c :: todo)) ->
                 f' !! q = g !! q)).
    { intros g Hg Hdir. destruct (IH _ _ Hg) as [Hd Hq]. split.
      - intros k Hk. destruct k as [|k]; [lia |]. simpl.
        destruct k as [|k].
        + rewrite take_0. rewrite Hq; [exact Hdir |].
          intros k Hk' Heq. apply (f_equal length) in Heq.
          rewrite !length_app, length_take in Heq. simpl in Heq. lia.
        + replace (done ++ c :: take (S k) todo)
            with ((done ++ [c]) ++ take (S k) todo) by now rewrite <- app_assoc.
          apply Hd. lia.
      - intros q Hne. apply Hq. intros k Hk.
        rewrite <- app_assoc. apply (Hne (S k)). lia. }
    destruct (f !! (done ++ [c])) as [[content|]|] eqn:Hl.
    + destruct todo; discriminate.
    + now apply Hstep.
    + destruct (Hstep _ H) as [Hd Hq]; [apply lookup_insert_eq |].
      split; [exact Hd |].
      intros q Hne. rewrite (Hq q Hne).
      apply lookup_insert_ne. intros Heq. apply (Hne 1); [simpl; lia |].
      simpl. now rewrite take_0.
Qed.


(** A successful non-dry call of [create_integration_manifest], laid open. *)
Lemma create_integration_manifest_ok self root server_path w w' :
  dry_run self = false ->
  create_integration_manifest self root server_path w = (w', Ok tt) ->
  exists rel f',
    PathLib.relative_to server_path root = Ok rel /\
    Os.mkdir_from [] root (fs w) = Ok f' /\
    w' = World (<[PathLib.div root MANIFEST_NAME := File (manifest_text self rel)]> f')
               (stdout w).
Proof.
  intros Hd. unfold create_integration_manifest, _write_file. rewrite Hd.
  unfold bind at 1. unfold lift at 1.
  destruct (PathLib.relative_to server_path root) as [rel|e]; [| discriminate].
  rewrite parent_div.
  unfold Os.mkdir_parents, Os.write_text, bind, get_fs, put_fs, raise.
  destruct (Os.mkdir_from [] root (fs w)) as [f'|e]; [| discriminate].
  cbn [fs stdout].
  destruct (Os.node_at f' (PathLib.div root MANIFEST_NAME)) as [[c|]|];
    intros H; try discriminate; injection H as <-; now exists rel, f'.
Qed.

(** X13.  The manifest is a report that a rerun overwrites: after a
    successful non-dry call the manifest file holds the rendering of that
    call's configuration, and a further non-dry call for the same root,
    with any configuration, succeeds and replaces the manifest by its own
    rendering, leaving every other path as it is. *)
Theorem create_integration_manifest_rerun
    (self1 self2 : CodexLocalModelIntegrator) (root server_path : Path)
    (w w1 : world) :
  dry_run self1 = false ->
  dry_run self2 = false ->
  create_integration_manifest self1 root server_path w = (w1, Ok tt) ->
  exists rel,
    PathLib.relative_to server_path root = Ok rel /\
    Os.node_at (fs w1) (PathLib.div root MANIFEST_NAME) =
      Some (File (manifest_text self1 rel)) /\
    create_integration_manifest self2 root server_path w1 =
      (World (<[PathLib.div root MANIFEST_NAME := File (manifest_text self2 rel)]>
                (fs w1))
             (stdout w1),
       Ok tt).
Proof.
  intros Hd1 Hd2 H1.
  destruct (create_integration_manifest_ok _ _ _ _ _ Hd1 H1)
    as (rel & f' & Hrel & Hmk & ->).
  set (mp := PathLib.div root MANIFEST_NAME).
  assert (Hmp : mp <> []) by (unfold mp, PathLib.div; now destruct root).
  exists rel. split; [exact Hrel |]. split.
  { cbn [fs]. now apply node_at_insert_eq. }
  destruct (mkdir_from_result _ _ _ _ Hmk) as [Hdirs _].
  assert (Hmk2 : Os.mkdir_from [] root (<[mp := File (manifest_text self1 rel)]> f') =
                 Ok (<[mp := File (manifest_text self1 rel)]> f')).
  { apply mkdir_from_present. intros k Hk.
    rewrite lookup_insert_ne; [now apply Hdirs |].
    intros Heq. apply (f_equal length) in Heq.
    unfold mp, PathLib.div in Heq.
    rewrite !length_app, length_take in Heq. simpl in Heq. lia. }
  unfold create_integration_manifest, _write_file. rewrite Hd2.
  unfold bind at 1. unfold lift at 1. rewrite Hrel.
  rewrite parent_div. fold mp.
  unfold Os.mkdir_parents, Os.write_text, bind, get_fs, put_fs, raise.
  cbn [fs stdout]. rewrite Hmk2. cbn [fs stdout].
  rewrite node_at_insert_eq by exact Hmp. reflexivity.
Qed.

(** X14.  The server module path that [run] hands to the manifest is
    always below the root: for a package directory that
    [resolve_package_dir] returned, [relative_to] succeeds on
    [package_dir/local_model_server.py], so in [run] the manifest's
    [server_module] never raises [ValueError]. *)
Theorem resolved_server_path_is_relative
    (f : gmap (list string) node) (root package_dir : Path) :
  resolve_package_dir f root = Ok package_dir ->
  exists rel,
    package_dir = root ++ rel /\
    PathLib.relative_to (PathLib.div package_dir "local_model_server.py") root =
      Ok (rel ++ ["local_model_server.py"]).
Proof.
  intros H. apply resolve_package_dir_sound in H. destruct H as [_ H].
  assert (Hrel : exists rel, package_dir = root ++ rel).
  { destruct H as [-> | [-> | [-> | (Hne & Hparent & _)]]].
    - now exists ["codex"].
    - exists ["src"; "codex"]. unfold PathLib.div. now rewrite <- app_assoc.
    - exists ["lib"; "codex"]. unfold PathLib.div. now rewrite <- app_assoc.
    - exists [PathLib.name package_dir]. rewrite <- Hparent.
      unfold PathLib.parent, PathLib.name. now apply app_removelast_last. }
  destruct Hrel as [rel ->]. exists rel. split; [reflexivity |].
  unfold PathLib.div. rewrite <- app_assoc. apply relative_to_app.
Qed.

End ManifestFacts.

Section RunFacts.
Import Py Tool.

Lemma first_existing_default_sound env f texts p :
  first_existing_default env f texts = Ok p -> Os.path_exists f p = true.
Proof.
  induction texts as [|text texts IH]; [discriminate |].
  simpl. destruct (expand_resolve env text) as [q|e]; [| discriminate].
  destruct (Os.path_exists f q) eqn:Hq; [| exact IH].
  intros H. now injection H as <-.
Qed.

(** X15.  Whatever [locate_codex] returns exists on disk: through the
    explicit path, the environment's directory or a default candidate, a
    returned root always passes [exists()]. *)
Theorem locate_codex_sound
    (self : CodexLocalModelIntegrator) (env : os_env)
    (f : gmap (list string) node) (root : Path) :
  locate_codex self env f = Ok root -> Os.path_exists f root = true.
Proof.
  unfold locate_codex.
  destruct (codex_root self) as [text|].
  - destruct (expand_resolve env text) as [q|e]; [| discriminate].
    destruct (Os.path_exists f q) eqn:Hq; cbn [negb]; [| discriminate].
    intros H. now injection H as <-.
  - destruct (CODEX_INSTALL_DIR env) as [env_dir|];
      [| apply first_existing_default_sound].
    destruct (is_empty env_dir); cbn [negb];
      [apply first_existing_default_sound |].
    destruct (expand_resolve env env_dir) as [q|e]; [| discriminate].
    destruct (Os.path_exists f q) eqn:Hq; [| apply first_existing_default_sound].
    intros H. now injection H as <-.
Qed.

(** X17.  [main] always fails: for every configuration, environment and
    world the exit status is 1, one [[ERROR]] line goes to standard error,
    and the success line is never printed. *)
Theorem main_always_exits_1
    (str_exc : exn -> string)
    (self : CodexLocalModelIntegrator) (env : os_env) (w : world) :
  exists w' e,
    Cli.main str_exc self env w = (w', ["[ERROR] " +:+ str_exc e], 1%Z) /\
    stdout w' = stdout w.
Proof.
  destruct (run_effect self env w) as (e & Hr & Hout & _).
  unfold Cli.main. destruct (run self env w) as [w' r].
  cbn [fst snd] in Hr, Hout. subst r. now exists w', e.
Qed.

End RunFacts.

Section InstallFailureFacts.
Import Py Tool.

(** X24.  What a failing [install_server_module] leaves behind.  When no
    bridge module exists yet, or the run is dry, the call raises
    [KeyError] for the template field [role] and the world is untouched.
    When a module exists, the run is not dry and the backup path is free,
    the old module is first copied to the backup path and the call then
    raises the same error: the backup is made although nothing is
    installed. *)
Theorem install_server_module_failure_effect
    (self : CodexLocalModelIntegrator) (package_dir : Path) (w : world) :
  (Os.path_exists (fs w) (PathLib.div package_dir "local_model_server.py") &&
   negb (dry_run self) = false ->
   install_server_module self package_dir w = (w, Raise (KeyError "role"))) /\
  (forall (backup : Path) (content : string),
     dry_run self = false ->
     Os.node_at (fs w) (PathLib.div package_dir "local_model_server.py") =
       Some (File content) ->
     backup_of self (PathLib.div package_dir "local_model_server.py") = Ok backup ->
     Os.node_at (fs w) backup = None ->
     install_server_module self package_dir w =
     (World (<[backup := File content]> (fs w)) (stdout w),
      Raise (KeyError "role"))).
Proof.
  unfold install_server_module. rewrite format_template_key_error.
  set (sp := PathLib.div package_dir "local_model_server.py").
  destruct w as [f out]. split.
  - intros Hguard. cbn [fs stdout] in Hguard.
    unfold bind, get_fs, lift, ret. cbn [fs stdout]. now rewrite Hguard.
  - intros backup content Hd Hn Hb Hnone. cbn [fs stdout] in *.
    unfold Os.copy2, Os.path_exists.
    unfold bind, get_fs, lift, ret, put_fs, raise. cbn [fs stdout].
    rewrite Hn, Hd. cbn [andb negb]. rewrite Hb. cbn [fs stdout].
    rewrite Hnone. cbn [negb fs stdout]. rewrite Hn, Hnone. reflexivity.
Qed.

(** X16.  [run] never completes: for every configuration, environment and
    world it ends with an exception and prints nothing, and the filesystem
    it leaves is the one it found, or that one with a single file added at
    a path where nothing was (the backup of an earlier bridge module). *)
Theorem run_never_completes
    (self : CodexLocalModelIntegrator) (env : os_env) (w : world) :
  (exists e, snd (run self env w) = Raise e) /\
  stdout (fst (run self env w)) = stdout w /\
  (fs (fst (run self env w)) = fs w \/
   exists (backup : Path) (content : string),
     Os.node_at (fs w) backup = None /\
     fs (fst (run self env w)) = <[backup := File content]> (fs w)).
Proof.
  destruct (run_effect self env w) as (e & Hr & Hout & Hfs).
  split; [now exists e |]. split; [exact Hout |].
  destruct Hfs as [Hfs | (package_dir & ->)]; [now left |].
  destruct (install_server_module_effect self package_dir w)
    as (_ & _ & _ & [Hfs | (backup & content & _ & _ & _ & Hnone & Hfs)]).
  - now left.
  - right. now exists backup, content.
Qed.


(** X26.  Taken one by one, the three writing operations honour the dry
    run: with the flag set, [install_server_module] and [inject_bootstrap]
    leave the filesystem exactly as it is, whatever they are called on,
    and [create_integration_manifest] leaves it as it is and prints the one
    line that names the manifest path. *)
Theorem dry_run_operations_write_nothing
    (self : CodexLocalModelIntegrator) (w : world) :
  dry_run self = true ->
  (forall package_dir,
     fs (fst (install_server_module self package_dir w)) = fs w) /\
  (forall entrypoint package_name,
     fs (fst (inject_bootstrap self entrypoint package_name w)) = fs w) /\
  (forall root server_path rel,
     PathLib.relative_to server_path root = Ok rel ->
     create_integration_manifest self root server_path w =
     (World (fs w)
            (stdout w ++
             ["[dry-run] Would write " +:+
              PathLib.str (PathLib.div root MANIFEST_NAME)]),
      Ok tt)).
Proof.
  intros Hd. split; [| split].
  - intros package_dir. now apply install_server_module_dry.
  - intros entrypoint package_name. now apply inject_bootstrap_dry_keeps_fs.
  - intros root server_path rel Hrel.
    unfold create_integration_manifest, _write_file, bind, lift.
    now rewrite Hrel, Hd.
Qed.

End InstallFailureFacts.

Section LineEndFacts.
Import Py Tool.

Lemma startswith_char (c a : ascii) (s : string) :
  startswith (char c) (String a s) = Ascii.eqb c a.
Proof. unfold char. cbn [startswith]. now destruct (Ascii.eqb c a). Qed.

Lemma contains_char_cons (c a : ascii) (s : string) :
  contains (char c) (String a s) = Ascii.eqb c a || contains (char c) s.
Proof. now rewrite contains_unfold, startswith_char. Qed.

Lemma universal_newlines_no_cr_len (n : nat) :
  forall s, String.length s <= n -> contains cr (universal_newlines s) = false.
Proof.
  induction n as [|n IH]; intros s Hlen.
  - destruct s; [reflexivity | simpl in Hlen; lia].
  - destruct s as [|a s]; [reflexivity |]. simpl in Hlen.
    cbn [universal_newlines]. destruct (Ascii.eqb a CR) eqn:Ea.
    + destruct s as [|b s]; [reflexivity |]. simpl in Hlen.
      destruct (Ascii.eqb b LF); unfold cr; rewrite contains_char_cons;
        fold cr; rewrite IH by (simpl; lia); reflexivity.
    + unfold cr. rewrite contains_char_cons. fold cr. rewrite IH by lia.
      now rewrite Ascii.eqb_sym, Ea.
Qed.

Lemma universal_newlines_no_cr (s : string) :
  contains cr (universal_newlines s) = false.
Proof. now apply (universal_newlines_no_cr_len (String.length s)). Qed.

Lemma splitlines_aux_no_cr (s cur : string) :
  contains cr cur = false -> contains cr s = false ->
  Forall (fun l => contains cr l = false) (splitlines_aux cur s).
Proof.
  revert cur. induction s as [|a s IH]; intros cur Hcur Hs.
  - simpl. destruct (is_empty cur); repeat constructor. exact Hcur.
  - unfold cr in Hs. rewrite contains_char_cons in Hs. fold cr in Hs.
    apply orb_false_iff in Hs. destruct Hs as [Ha Hs].
    assert (Ea : Ascii.eqb a CR = false) by now rewrite Ascii.eqb_sym.
    cbn [splitlines_aux]. rewrite Ea. destruct (is_linebreak a).
    + constructor; [exact Hcur | now apply IH].
    + apply IH; [| exact Hs].
      unfold cr. rewrite contains_char_app.
      change (char a) with (String a EmptyString).
      rewrite contains_char_cons, Ha. fold cr. now rewrite Hcur.
Qed.

Lemma join_no_cr (lines : list string) :
  Forall (fun l => contains cr l = false) lines ->
  contains cr (join nl lines) = false.
Proof.
  induction 1 as [|x rest Hx _ IH]; [reflexivity |].
  destruct rest as [|y rest]; [exact Hx |].
  change (join nl (x :: y :: rest)) with (x +:+ nl +:+ join nl (y :: rest)).
  unfold cr. rewrite !contains_char_app. fold cr. now rewrite Hx, IH.
Qed.

(** X25.  Patching normalises the line ends: for a package name without
    line feed or carriage return, the text that [inject_bootstrap] writes
    into the entrypoint holds no carriage return, whatever line ends the
    file had. *)
Theorem inject_bootstrap_writes_no_carriage_return
    (self : CodexLocalModelIntegrator) (entrypoint backup : Path)
    (package_name : string) (w : world) (content : string) :
  contains nl package_name = false ->
  contains (char CR) package_name = false ->
  dry_run self = false ->
  backup_of self entrypoint = Ok backup ->
  Os.node_at (fs w) entrypoint = Some (File content) ->
  contains MARKER (universal_newlines content) = false ->
  exists text,
    Os.node_at (fs (fst (inject_bootstrap self entrypoint package_name w)))
               entrypoint = Some (File text) /\
    contains (char CR) text = false.
Proof.
  intros Hlf Hcr Hd Hb Hn Hm.
  rewrite (inject_bootstrap_patches _ _ package_name _ _ _ Hn Hm Hd Hb).
  cbn [fst fs]. unfold patched_fs.
  rewrite node_at_insert_eq by (eapply node_at_file_nonroot; exact Hn).
  eexists. split; [reflexivity |].
  unfold patched_text. fold cr. apply join_no_cr.
  assert (Hlines : Forall (fun l => contains cr l = false)
                     (splitlines (universal_newlines content))).
  { apply splitlines_aux_no_cr; [reflexivity | apply universal_newlines_no_cr]. }
  apply Forall_app. split; [now apply Forall_take |].
  apply Forall_app. split; [| now apply Forall_drop].
  repeat constructor.
  rewrite (injection_text package_name Hlf).
  apply join_no_cr. repeat constructor.
  unfold cr. rewrite !contains_char_app. fold cr. unfold cr. now rewrite Hcr.
Qed.

End LineEndFacts.

Section FurtherWitnesses.
Import Py Tool.

Lemma resolve_package_dir_sound_witness :
  Os.path_exists Sample.installation
    (PathLib.div Sample.package_dir "__init__.py") = true /\
  (Sample.package_dir = PathLib.div Sample.root "codex" \/
   Sample.package_dir = PathLib.div (PathLib.div Sample.root "src") "codex" \/
   Sample.package_dir = PathLib.div (PathLib.div Sample.root "lib") "codex" \/
   (Sample.package_dir <> [] /\ PathLib.parent Sample.package_dir = Sample.root /\
    Os.is_dir Sample.installation Sample.package_dir = true /\
    startswith "codex" (lower (PathLib.name Sample.package_dir)) = true)).
Proof.
  apply (resolve_package_dir_sound Sample.installation Sample.root
           Sample.package_dir).
  vm_compute. reflexivity.
Defined.

Lemma resolve_package_dir_fixed_first_witness :
  resolve_package_dir Sample.installation Sample.root = Ok Sample.package_dir.
Proof.
  apply (resolve_package_dir_fixed_first Sample.installation Sample.root
           Sample.package_dir).
  vm_compute. reflexivity.
Defined.

Lemma resolve_package_dir_without_package_witness :
  resolve_package_dir Fixture.bare_root ["srv"] =
  Raise (FileNotFoundError
           ("Could not find a Codex python package under /srv" +:+
            ". Expected to see a directory containing an __init__.py file.")).
Proof.
  apply (resolve_package_dir_without_package Fixture.bare_root ["srv"]).
  intros p. unfold Os.path_exists, Os.node_at, PathLib.div, Fixture.bare_root.
  destruct p as [|a [|b p]]; simpl;
    rewrite lookup_singleton_ne by discriminate; reflexivity.
Defined.

Lemma resolve_entrypoint_sound_witness :
  PathLib.parent ["srv"; "pkg"; "start.py"] = ["srv"; "pkg"] /\
  Os.path_exists Fixture.package_with_guard ["srv"; "pkg"; "start.py"] = true /\
  (In (PathLib.name ["srv"; "pkg"; "start.py"])
      ["__main__.py"; "cli.py"; "main.py"; "app.py"] \/
   (Forall (fun name => Os.path_exists Fixture.package_with_guard
                          (PathLib.div ["srv"; "pkg"] name) = false)
           ["__main__.py"; "cli.py"; "main.py"; "app.py"] /\
    endswith ".py" (PathLib.name ["srv"; "pkg"; "start.py"]) = true /\
    exists text,
      Os.read_text_of Fixture.package_with_guard ["srv"; "pkg"; "start.py"] =
        Ok text /\
      contains MAIN_GUARD text = true)).
Proof.
  apply (resolve_entrypoint_sound Fixture.package_with_guard ["srv"; "pkg"]
           ["srv"; "pkg"; "start.py"]).
  vm_compute. reflexivity.
Defined.

Lemma resolve_entrypoint_conventional_first_witness :
  resolve_entrypoint Sample.installation Sample.package_dir = Ok Sample.entrypoint.
Proof.
  apply (resolve_entrypoint_conventional_first Sample.installation
           Sample.package_dir Sample.entrypoint).
  vm_compute. reflexivity.
Defined.

Lemma resolve_entrypoint_not_found_witness :
  resolve_entrypoint Fixture.package_without_entry ["srv"; "pkg"] =
  Raise (FileNotFoundError
           ("Unable to locate Codex CLI entrypoint under /srv/pkg" +:+
            ". Tried __main__.py, cli.py, main.py and files with a __main__ guard.")).
Proof.
  apply (resolve_entrypoint_not_found Fixture.package_without_entry ["srv"; "pkg"]).
  - repeat (constructor; [vm_compute; reflexivity |]). constructor.
  - assert (Hg : Os.glob_py Fixture.package_without_entry ["srv"; "pkg"] =
                 [["srv"; "pkg"; "util.py"]; ["srv"; "pkg"; "__init__.py"]])
      by (vm_compute; reflexivity).
    rewrite Hg.
    repeat (constructor; [eexists; split; vm_compute; reflexivity |]).
    constructor.
Defined.

Lemma resolve_entrypoint_directory_named_py_witness :
  resolve_entrypoint Fixture.package_with_py_directory ["srv"; "pkg"] =
  Raise (IsADirectoryError ["srv"; "pkg"; "tools.py"]).
Proof.
  apply (resolve_entrypoint_directory_named_py Fixture.package_with_py_directory
           ["srv"; "pkg"] ["srv"; "pkg"; "tools.py"] [] []).
  - repeat (constructor; [vm_compute; reflexivity |]). constructor.
  - vm_compute. reflexivity.
  - constructor.
  - vm_compute. reflexivity.
Defined.

Lemma backup_of_py_file_witness :
  backup_of Sample.defaults Sample.entrypoint =
    Ok (Sample.package_dir ++ ["cli.py.bak"]) /\
  backup_of (Sample.with_backup_suffix "/'" Sample.defaults) Sample.entrypoint =
    Raise (ValueError (unquote "Invalid suffix `.py/'`")).
Proof.
  split.
  - apply (backup_of_py_file Sample.defaults Sample.entrypoint "cli");
      reflexivity.
  - apply (backup_of_py_file (Sample.with_backup_suffix "/'" Sample.defaults)
             Sample.entrypoint "cli"); reflexivity.
Defined.

Lemma injection_text_witness :
  injection "codex" =
  join nl [
    "# >>> CODEx local model integration (auto-generated)";
    "try:";
    "    from .local_model_server import ensure_local_model_server  # type: ignore";
    "except Exception:  # pragma: no cover - fallback for script entrypoints";
    "    from " +:+ "codex" +:+
      ".local_model_server import ensure_local_model_server  # type: ignore";
    "ensure_local_model_server()";
    "# <<< CODEx local model integration (auto-generated)"
  ].
Proof. apply (injection_text "codex"). reflexivity. Defined.

Lemma inject_bootstrap_touches_two_paths_witness :
  Os.node_at
    (fs (fst (inject_bootstrap Sample.defaults Sample.entrypoint "codex"
                (World Sample.installation []))))
    (PathLib.div Sample.package_dir "__init__.py") =
  Os.node_at (fs (World Sample.installation []))
    (PathLib.div Sample.package_dir "__init__.py").
Proof.
  apply (inject_bootstrap_touches_two_paths Sample.defaults Sample.entrypoint
           "codex" (World Sample.installation [])
           (PathLib.div Sample.package_dir "__init__.py")).
  - discriminate.
  - vm_compute. discriminate.
Defined.

Lemma inject_bootstrap_first_patch_witness :
  inject_bootstrap Sample.defaults Sample.entrypoint "codex"
    (World Sample.installation []) =
  (World (<[Sample.entrypoint :=
              File (patched_text (universal_newlines Sample.cli_text) "codex")]>
            (<[Sample.package_dir ++ ["cli.py.bak"] := File Sample.cli_text]>
               Sample.installation))
         [],
   Ok tt).
Proof.
  apply (inject_bootstrap_first_patch Sample.defaults Sample.entrypoint
           (Sample.package_dir ++ ["cli.py.bak"]) "codex"
           (World Sample.installation []) Sample.cli_text);
    vm_compute; reflexivity.
Defined.


Lemma create_integration_manifest_rerun_witness :
  exists rel,
    PathLib.relative_to (PathLib.div Sample.package_dir "local_model_server.py")
      Sample.root = Ok rel /\
    Os.node_at
      (fs (World (<[PathLib.div Sample.root MANIFEST_NAME :=
                     File (manifest_text Sample.defaults
                             ["codex"; "local_model_server.py"])]>
                   Sample.installation) []))
      (PathLib.div Sample.root MANIFEST_NAME) =
      Some (File (manifest_text Sample.defaults rel)) /\
    create_integration_manifest (Fixture.with_port 4000 Sample.defaults)
      Sample.root (PathLib.div Sample.package_dir "local_model_server.py")
      (World (<[PathLib.div Sample.root MANIFEST_NAME :=
                 File (manifest_text Sample.defaults
                         ["codex"; "local_model_server.py"])]>
               Sample.installation) []) =
    (World (<[PathLib.div Sample.root MANIFEST_NAME :=
               File (manifest_text (Fixture.with_port 4000 Sample.defaults) rel)]>
              (fs (World (<[PathLib.div Sample.root MANIFEST_NAME :=
                             File (manifest_text Sample.defaults
                                     ["codex"; "local_model_server.py"])]>
                           Sample.installation) [])))
           (stdout (World (<[PathLib.div Sample.root MANIFEST_NAME :=
                              File (manifest_text Sample.defaults
                                      ["codex"; "local_model_server.py"])]>
                            Sample.installation) [])),
     Ok tt).
Proof.
  apply (create_integration_manifest_rerun Sample.defaults
           (Fixture.with_port 4000 Sample.defaults) Sample.root
           (PathLib.div Sample.package_dir "local_model_server.py")
           (World Sample.installation [])).
  - reflexivity.
  - reflexivity.
  - vm_compute. reflexivity.
Defined.

Lemma resolved_server_path_is_relative_witness :
  exists rel,
    Sample.package_dir = Sample.root ++ rel /\
    PathLib.relative_to (PathLib.div Sample.package_dir "local_model_server.py")
      Sample.root = Ok (rel ++ ["local_model_server.py"]).
Proof.
  apply (resolved_server_path_is_relative Sample.installation Sample.root
           Sample.package_dir).
  vm_compute. reflexivity.
Defined.

Lemma locate_codex_sound_witness :
  Os.path_exists Sample.installation Sample.root = true.
Proof.
  apply (locate_codex_sound Sample.defaults Sample.env Sample.installation
           Sample.root).
  vm_compute. reflexivity.
Defined.

Lemma install_server_module_failure_effect_witness :
  install_server_module Sample.defaults Sample.package_dir
    (World Sample.installation []) =
    (World Sample.installation [], Raise (KeyError "role")) /\
  install_server_module Sample.defaults Sample.package_dir
    (World Sample.installation_with_old_server []) =
    (World (<[Sample.package_dir ++ ["local_model_server.py.bak"] :=
                File "# old bridge"]>
              (fs (World Sample.installation_with_old_server [])))
           (stdout (World Sample.installation_with_old_server [])),
     Raise (KeyError "role")).
Proof.
  split.
  - apply (proj1 (install_server_module_failure_effect Sample.defaults
                    Sample.package_dir (World Sample.installation []))).
    vm_compute. reflexivity.
  - apply (proj2 (install_server_module_failure_effect Sample.defaults
                    Sample.package_dir
                    (World Sample.installation_with_old_server [])));
      vm_compute; reflexivity.
Defined.

Lemma inject_bootstrap_writes_no_carriage_return_witness :
  exists text,
    Os.node_at
      (fs (fst (inject_bootstrap Sample.defaults Sample.entrypoint "codex"
                  (World (Sample.installation_with
                            ("import os" +:+ cr +:+ nl +:+ "run()" +:+ cr +:+ nl))
                         []))))
      Sample.entrypoint = Some (File text) /\
    contains (char CR) text = false.
Proof.
  apply (inject_bootstrap_writes_no_carriage_return Sample.defaults
           Sample.entrypoint (Sample.package_dir ++ ["cli.py.bak"]) "codex"
           (World (Sample.installation_with
                     ("import os" +:+ cr +:+ nl +:+ "run()" +:+ cr +:+ nl)) [])
           ("import os" +:+ cr +:+ nl +:+ "run()" +:+ cr +:+ nl));
    vm_compute; reflexivity.
Defined.

Lemma dry_run_operations_write_nothing_witness :
  (forall package_dir,
     fs (fst (install_server_module (Sample.with_dry_run Sample.defaults)
                package_dir (World Sample.installation []))) =
     fs (World Sample.installation [])) /\
  (forall entrypoint package_name,
     fs (fst (inject_bootstrap (Sample.with_dry_run Sample.defaults)
                entrypoint package_name (World Sample.installation []))) =
     fs (World Sample.installation [])) /\
  (forall root server_path rel,
     PathLib.relative_to server_path root = Ok rel ->
     create_integration_manifest (Sample.with_dry_run Sample.defaults)
       root server_path (World Sample.installation []) =
     (World (fs (World Sample.installation []))
            (stdout (World Sample.installation []) ++
             ["[dry-run] Would write " +:+
              PathLib.str (PathLib.div root MANIFEST_NAME)]),
      Ok tt)).
Proof.
  apply (dry_run_operations_write_nothing (Sample.with_dry_run Sample.defaults)
           (World Sample.installation [])).
  reflexivity.
Defined.

End FurtherWitnesses.

Section ShippedModuleClaims.
Import Py Tool.

(** A file named [local_model_server.py] is not the backup of one, unless
    the backup suffix is empty, and then the backup path is there
    already: [install_server_module] leaves every such path as it is. *)
Lemma install_server_module_keeps_bridge self package_dir w p :
  PathLib.name p = "local_model_server.py" ->
  Os.node_at (fs (fst (install_server_module self package_dir w))) p =
  Os.node_at (fs w) p.
Proof.
  intros Hname.
  destruct (install_server_module_effect self package_dir w)
    as (e & _ & _ & [-> | (backup & content & _ & Hb & Hsp & Hnone & ->)]);
    [reflexivity |].
  apply node_at_insert_ne. intros <-.
  unfold backup_of in Hb.
  destruct (with_suffix_py (server_path_of package_dir) "local_model_server"
              (backup_suffix self)) as [Hsuf Hw].
  { unfold server_path_of. now rewrite name_div. }
  { reflexivity. }
  rewrite Hsuf, Hw in Hb.
  destruct (contains "/" (backup_suffix self)); [discriminate |].
  injection Hb as Hb. subst backup.
  unfold server_path_of in Hname, Hnone, Hsp.
  rewrite name_div, parent_div in Hname, Hnone.
  fold (PathLib.div package_dir ("local_model_server.py" +:+ backup_suffix self))
    in Hname, Hnone.
  rewrite name_div in Hname. rewrite Hname in Hnone.
  rewrite Hsp in Hnone. discriminate.
Qed.

(** C7.  [_normalise_prompt] exists as text of [SERVER_MODULE_TEMPLATE]
    only, and that text is not a function.  Its [def] is line 20 of the
    template; its [return] statement, which tool.py spells with the escape
    for a line feed between two double quotes, is cut by that line feed
    into the lines 31 and 32, so that a string literal opens on line 31
    and does not close: Python refuses the text as a module.  And the
    integrator never produces a module from the template for any host,
    port and model, since rendering raises [KeyError] on the
    field of the function's own f-string.  No prompt is ever
    normalised. *)
Theorem normalise_prompt_return_is_cut_by_line_feed :
  template_line 20 = Some NORMALISE_PROMPT_HEADER /\
  template_line 31 = Some RETURN_OPENING /\
  template_line 32 = Some RETURN_REMAINDER /\
  PySource.unterminated SERVER_MODULE_TEMPLATE =
    Some (PySource.UnterminatedString 31) /\
  forall self : CodexLocalModelIntegrator,
    render_server_module self = Raise (KeyError "role").
Proof.
  split; [vm_compute; reflexivity |].
  split; [vm_compute; reflexivity |].
  split; [vm_compute; reflexivity |].
  split; [vm_compute; reflexivity |].
  exact format_template_key_error.
Qed.

(** C8.  The request handler is never installed.  Whatever the
    configuration, the environment and the filesystem, [run] raises and
    leaves every path named [local_model_server.py] as it found it:
    absent if it was absent, with its old content otherwise.  The handler's
    [do_POST] is line 70 of the template, behind the string literal that
    opens on line 31 and does not close, so the text cannot be imported
    even when put in place by hand.  No request is answered, with status
    500 or any other. *)
Theorem request_handler_is_never_installed
    (self : CodexLocalModelIntegrator) (env : os_env) (w : world) (p : Path) :
  PathLib.name p = "local_model_server.py" ->
  (exists e, snd (run self env w) = Raise e) /\
  Os.node_at (fs (fst (run self env w))) p = Os.node_at (fs w) p /\
  template_line 70 = Some DO_POST_HEADER /\
  exists line,
    PySource.unterminated SERVER_MODULE_TEMPLATE =
      Some (PySource.UnterminatedString line) /\
    (line < 70)%nat.
Proof.
  intros Hname.
  destruct (run_effect self env w) as (e & Hr & _ & Hfs).
  split; [now exists e |].
  split.
  - destruct Hfs as [-> | (package_dir & ->)]; [reflexivity |].
    now apply install_server_module_keeps_bridge.
  - split; [vm_compute; reflexivity |].
    exists 31%nat. split; [vm_compute; reflexivity | lia].
Qed.

End ShippedModuleClaims.

Section ShippedModuleWitnesses.
Import Py Tool.

Lemma request_handler_is_never_installed_witness :
  (exists e,
     snd (run Sample.defaults Sample.env (World Sample.installation [])) =
     Raise e) /\
  Os.node_at
    (fs (fst (run Sample.defaults Sample.env (World Sample.installation []))))
    (PathLib.div Sample.package_dir "local_model_server.py") =
  Os.node_at Sample.installation
    (PathLib.div Sample.package_dir "local_model_server.py") /\
  template_line 70 = Some DO_POST_HEADER /\
  exists line,
    PySource.unterminated SERVER_MODULE_TEMPLATE =
      Some (PySource.UnterminatedString line) /\
    (line < 70)%nat.
Proof.
  apply (request_handler_is_never_installed Sample.defaults Sample.env
           (World Sample.installation [])
           (PathLib.div Sample.package_dir "local_model_server.py")).
  reflexivity.
Defined.

Lemma inject_bootstrap_splits_open_docstring_witness :
  insertion_point
    (splitlines (universal_newlines Sample.cli_long_docstring_text)) = 1%nat /\
  snd (inject_bootstrap Sample.defaults Sample.entrypoint "codex"
         (World (Sample.installation_with Sample.cli_long_docstring_text) [])) =
    Ok tt /\
  Os.node_at
    (fs (fst (inject_bootstrap Sample.defaults Sample.entrypoint "codex"
                (World (Sample.installation_with Sample.cli_long_docstring_text) []))))
    Sample.entrypoint =
  Some (File (join nl (unquote "```Codex command line." ::
                       injection "codex" :: EmptyString ::
                       "Starts the interactive shell." ::
                       drop 2 Sample.cli_long_docstring_lines))).
Proof.
  apply (inject_bootstrap_splits_open_docstring Sample.defaults
           Sample.entrypoint (Sample.package_dir ++ ["cli.py.bak"]) "codex"
           (World (Sample.installation_with Sample.cli_long_docstring_text) [])
           Sample.cli_long_docstring_text DQ []);
    try (vm_compute; reflexivity).
  constructor.
Defined.

End ShippedModuleWitnesses.
